(** * SEO-Pulse: recommendation extractor, metrics analyzer and report composer

    A shallow embedding of [src/main.py]:
    - [PageSpeedAnalyzer.extract_smart_recommendations] (module [Extractor]),
    - [PageSpeedAnalyzer.analyze] (module [Analyzer]),
    - [ReportGenerator.generate_report] (module [Report]),
    - [ReportGenerator._sanitize_for_email] and the message of
      [ReportGenerator.send_email] (module [Mailer]),
    - [Config.validate] and [main] (module [Orchestrator]),
    followed by the properties proved about them.

    Conventions of the embedding.
    - A Python [str] is a list of Unicode code points ([pystr]); [len] is
      [length].  String literals are written as in the source and decoded
      from UTF-8 by [lit].
    - A Python [int] is a [Z].  A Python [float] is the rational it denotes;
      every operation that produces a float rounds its exact result with
      [round_b64] (53-bit significand, round to nearest, ties to even).  The
      exponent range is not bounded, so overflow, subnormal numbers, signed
      zeros, infinities and NaN are outside the model.
    - A decoded JSON document is a [json] value; a [dict] is an association
      list in insertion order whose keys are pairwise distinct ([wf_dict]).
    - Raising is explicit: fallible code returns a [result]. *)

From Stdlib Require Import String Ascii Numbers.DecimalString.
From Stdlib Require Import ZArith NArith QArith Qround Qabs.
From Stdlib Require Import List Bool Lia Lqa Permutation Sorted.
Import ListNotations.

Close Scope Q_scope.
Close Scope string_scope.


(* ================================================================== *)
(** * Python values *)
(* ================================================================== *)

Module Py.

(** ** Strings *)

Definition codepoint := N.
Definition pystr := list codepoint.

(** UTF-8 decoding of a literal: [need] continuation bytes are still
    expected and [acc] holds the bits read so far. *)
Fixpoint utf8_go (s : string) (need : nat) (acc : N) : pystr :=
  match s with
  | EmptyString => []
  | String a rest =>
      let b := N_of_ascii a in
      match need with
      | O =>
          if (b <? 128)%N then b :: utf8_go rest 0 0%N
          else if (b <? 224)%N then utf8_go rest 1 (b - 192)%N
          else if (b <? 240)%N then utf8_go rest 2 (b - 224)%N
          else utf8_go rest 3 (b - 240)%N
      | S O => (acc * 64 + (b - 128))%N :: utf8_go rest 0 0%N
      | S n => utf8_go rest n (acc * 64 + (b - 128))%N
      end
  end.

Definition lit (s : string) : pystr := utf8_go s 0 0%N.
Arguments lit s%_string.

Definition space : codepoint := 32%N.

Fixpoint pystr_eqb (a b : pystr) : bool :=
  match a, b with
  | [], [] => true
  | x :: a', y :: b' => (x =? y)%N && pystr_eqb a' b'
  | _, _ => false
  end.

(** [s.ljust(width)] *)
Definition ljust (width : nat) (s : pystr) : pystr :=
  s ++ repeat space (width - length s).

(** [s.center(width)]: CPython puts [marg/2 + (marg & width & 1)] fill
    characters on the left. *)
Definition center (width : nat) (s : pystr) : pystr :=
  let marg := width - length s in
  let left := Nat.div marg 2 + Nat.land (Nat.land marg width) 1 in
  repeat space left ++ s ++ repeat space (marg - left).

(** [s[:n]] for a non-negative [n] *)
Definition slice_to (n : nat) (s : pystr) : pystr := firstn n s.

(** [c.isspace()] *)
Definition isspace (c : codepoint) : bool :=
  ((9 <=? c) && (c <=? 13) || (28 <=? c) && (c <=? 32)
   || (c =? 133) || (c =? 160) || (c =? 5760)
   || (8192 <=? c) && (c <=? 8202)
   || (c =? 8232) || (c =? 8233) || (c =? 8239) || (c =? 8287)
   || (c =? 12288))%N.

(** [s.split()]: maximal runs of non-space characters, in order.  [cur]
    is the run being read, last character first. *)
Fixpoint split_go (s : pystr) (cur : pystr) : list pystr :=
  match s with
  | [] => match cur with [] => [] | _ => [rev cur] end
  | c :: rest =>
      if isspace c
      then match cur with
           | [] => split_go rest []
           | _ => rev cur :: split_go rest []
           end
      else split_go rest (c :: cur)
  end.

Definition split (s : pystr) : list pystr := split_go s [].

(** [s.strip()] *)
Fixpoint lstrip (s : pystr) : pystr :=
  match s with
  | c :: rest => if isspace c then lstrip rest else s
  | [] => []
  end.

Definition strip (s : pystr) : pystr := rev (lstrip (rev (lstrip s))).

(** [str(z)] for an [int] *)
Definition str_of_Z (z : Z) : pystr :=
  map N_of_ascii (list_ascii_of_string (NilZero.string_of_int (Z.to_int z))).

(** Truthiness of a string *)
Definition nonempty (s : pystr) : bool :=
  match s with [] => false | _ => true end.

(** ** Numbers *)

(** Nearest integer, ties to the even one. *)
Definition round_half_even (q : Q) : Z :=
  let f := Qfloor q in
  match (q - inject_Z f ?= 1 # 2)%Q with
  | Lt => f
  | Gt => (f + 1)%Z
  | Eq => if Z.even f then f else (f + 1)%Z
  end.

(** [2^e] as a rational *)
Definition pow2 (e : Z) : Q :=
  match e with
  | Z0 => 1%Q
  | Zpos p => inject_Z (2 ^ Zpos p)
  | Zneg p => (1 # (2 ^ p))%Q
  end.

(** The binary64 value nearest to [q]: the significand is scaled into
    [2^52, 2^53) and rounded to an integer. *)
Definition round_b64 (q : Q) : Q :=
  if Qeq_bool q 0 then 0%Q
  else
    let a := Qabs q in
    let e0 := (Z.log2 (Qnum a) - Z.log2 (Zpos (Qden a)) - 52)%Z in
    let e := if Qle_bool (pow2 52) (a / pow2 e0) then e0 else (e0 - 1)%Z in
    let m := round_half_even (a / pow2 e) in
    let r := Qred (inject_Z m * pow2 e) in
    if Qle_bool 0 q then r else Qred (- r).

(** [int(x)] for a float: truncation towards zero *)
Definition trunc (q : Q) : Z := Z.quot (Qnum q) (Zpos (Qden q)).

(** [round(x, ndigits)] for a float [x] *)
Definition round_ndigits (q : Q) (ndigits : positive) : Q :=
  let p := inject_Z (10 ^ Zpos ndigits) in
  round_b64 (inject_Z (round_half_even (q * p)) / p).

(** An [int] or a [float] *)
Inductive num : Type :=
| NInt (z : Z)
| NFloat (q : Q).

(** ** Decoded JSON *)

#[local] Set Warnings "-register-all".

Inductive json : Type :=
| JNull
| JBool (b : bool)
| JInt (z : Z)
| JFloat (q : Q)
| JStr (s : pystr)
| JArr (l : list json)
| JObj (d : list (pystr * json)).

Definition dict := list (pystr * json).

Definition wf_dict (d : dict) : Prop := NoDup (map fst d).

Fixpoint dict_get (d : dict) (k : pystr) : option json :=
  match d with
  | [] => None
  | (k', v) :: rest => if pystr_eqb k' k then Some v else dict_get rest k
  end.

(** [k in d] *)
Definition dict_mem (d : dict) (k : pystr) : bool :=
  match dict_get d k with Some _ => true | None => false end.

(** [d.get(k, default)] *)
Definition get (d : dict) (k : pystr) (default : json) : json :=
  match dict_get d k with Some v => v | None => default end.

(** The value of a number; [bool] is a subclass of [int]. *)
Definition num_of (v : json) : option Q :=
  match v with
  | JBool b => Some (if b then 1%Q else 0%Q)
  | JInt z => Some (inject_Z z)
  | JFloat q => Some q
  | _ => None
  end.

(** Truthiness, as tested by [or] and [if] *)
Definition truthy (v : json) : bool :=
  match v with
  | JNull => false
  | JBool b => b
  | JInt z => negb (z =? 0)%Z
  | JFloat q => negb (Qeq_bool q 0)
  | JStr s => nonempty s
  | JArr l => match l with [] => false | _ => true end
  | JObj d => match d with [] => false | _ => true end
  end.

(** ** Exceptions *)

Inductive exn : Type :=
| Timeout            (* requests.exceptions.Timeout *)
| HTTPError          (* requests.exceptions.HTTPError *)
| RequestException   (* any other requests.exceptions.RequestException *)
| KeyError
| AttributeError
| TypeError
| ValueError
| UnicodeEncodeError (* a ValueError: a character that cannot be encoded *)
| OtherException.    (* any other subclass of Exception *)

Inductive result (A : Type) : Type :=
| Return (a : A)
| Raise (e : exn).

Arguments Return {A} a.
Arguments Raise {A} e.

Definition bind {A B : Type} (m : result A) (f : A -> result B) : result B :=
  match m with
  | Return a => f a
  | Raise e => Raise e
  end.

(** [v.get]: only a [dict] has the attribute *)
Definition as_dict (v : json) : result dict :=
  match v with
  | JObj d => Return d
  | _ => Raise AttributeError
  end.

(** ** Encoding *)

(** A surrogate code point: alone in a [str], it has no UTF-8 encoding. *)
Definition is_surrogate (c : codepoint) : bool :=
  ((55296 <=? c) && (c <=? 57343))%N.

(** The UTF-8 bytes of a code point that is not a surrogate *)
Definition utf8_bytes (c : codepoint) : list N :=
  (if c <? 128 then [c]
   else if c <? 2048 then [192 + c / 64; 128 + c mod 64]
   else if c <? 65536 then
     [224 + c / 4096; 128 + (c / 64) mod 64; 128 + c mod 64]
   else
     [240 + c / 262144; 128 + (c / 4096) mod 64; 128 + (c / 64) mod 64;
      128 + c mod 64])%N.

(** [s.encode('utf-8')], errors being strict: the first surrogate
    raises [UnicodeEncodeError]. *)
Fixpoint encode_utf8 (s : pystr) : result (list N) :=
  match s with
  | [] => Return []
  | c :: rest =>
      if is_surrogate c then Raise UnicodeEncodeError
      else bind (encode_utf8 rest) (fun bs => Return (utf8_bytes c ++ bs))
  end.

End Py.

Import Py.

Declare Scope py_scope.
Delimit Scope py_scope with py.
Notation "x <- m ;; f" := (bind m (fun x => f))
  (at level 61, m at next level, right associativity) : py_scope.
Open Scope py_scope.

(* ================================================================== *)
(** * The translation table [AUDIT_TRANSLATIONS] *)
(* ================================================================== *)

Record translation : Type := {
  tr_title : pystr;
  tr_action : pystr
}.

(** Every entry of the table carries both keys, [title] and [action]. *)
Definition AUDIT_TRANSLATIONS : list (pystr * translation) :=
  [
    (lit "render-blocking-resources",
     {| tr_title := lit "🚫 Render Engelleyen Kaynakları Azaltın";
        tr_action := lit "CSS ve JavaScript dosyalarını async/defer ile yükleyin. Kritik CSS'i inline yapın." |});
    (lit "unused-javascript",
     {| tr_title := lit "📦 Kullanılmayan JavaScript'i Kaldırın";
        tr_action := lit "Kullanılmayan JS kodlarını tespit edip silin. Code splitting uygulayın." |});
    (lit "unused-css-rules",
     {| tr_title := lit "🎨 Kullanılmayan CSS'i Temizleyin";
        tr_action := lit "PurgeCSS veya benzeri araçlarla kullanılmayan stilleri kaldırın." |});
    (lit "unminified-javascript",
     {| tr_title := lit "📉 JavaScript'i Sıkıştırın";
        tr_action := lit "Terser veya UglifyJS ile JS dosyalarını minify edin." |});
    (lit "unminified-css",
     {| tr_title := lit "📉 CSS'i Sıkıştırın";
        tr_action := lit "CSS dosyalarını cssnano veya benzeri araçlarla minify edin." |});
    (lit "modern-image-formats",
     {| tr_title := lit "🖼️ Modern Görsel Formatlarına Geçin";
        tr_action := lit "JPEG/PNG yerine WebP veya AVIF formatlarını kullanın. %25-50 tasarruf sağlar." |});
    (lit "uses-optimized-images",
     {| tr_title := lit "🖼️ Görselleri Optimize Edin";
        tr_action := lit "Görselleri sıkıştırın (TinyPNG, ImageOptim). Boyutları küçültün." |});
    (lit "offscreen-images",
     {| tr_title := lit "📸 Görünmeyen Görselleri Lazy Load Yapın";
        tr_action := lit "loading='lazy' özelliğini ekleyin. Viewport dışındaki görselleri erteleyin." |});
    (lit "uses-responsive-images",
     {| tr_title := lit "📱 Responsive Görseller Kullanın";
        tr_action := lit "srcset ve sizes özelliklerini kullanarak farklı ekranlara uygun görseller sunun." |});
    (lit "efficiently-encode-images",
     {| tr_title := lit "🔧 Görselleri Verimli Kodlayın";
        tr_action := lit "Görselleri JPEG quality 80-85 ile optimize edin." |});
    (lit "uses-text-compression",
     {| tr_title := lit "📦 Metin Sıkıştırma (Gzip/Brotli) Etkinleştirin";
        tr_action := lit "Sunucu ayarlarından Gzip veya Brotli sıkıştırmayı aktif edin." |});
    (lit "uses-rel-preconnect",
     {| tr_title := lit "🔗 Erken Bağlantı Kurulumunu Etkinleştirin";
        tr_action := lit "3. parti kaynaklara <link rel='preconnect'> ekleyin." |});
    (lit "uses-rel-preload",
     {| tr_title := lit "⚡ Kritik Kaynakları Önceden Yükleyin";
        tr_action := lit "Önemli font ve CSS dosyalarına <link rel='preload'> ekleyin." |});
    (lit "server-response-time",
     {| tr_title := lit "🖥️ Sunucu Yanıt Süresini Azaltın (TTFB)";
        tr_action := lit "CDN kullanın, veritabanı sorgularını optimize edin, caching ekleyin." |});
    (lit "redirects",
     {| tr_title := lit "🔀 Yönlendirmeleri Azaltın";
        tr_action := lit "Gereksiz redirect zincirlerini kaldırın. Doğrudan URL'lere yönlendirin." |});
    (lit "uses-http2",
     {| tr_title := lit "🌐 HTTP/2 Protokolünü Kullanın";
        tr_action := lit "Sunucunuzu HTTP/2 destekleyecek şekilde yapılandırın." |});
    (lit "dom-size",
     {| tr_title := lit "📄 DOM Boyutunu Küçültün";
        tr_action := lit "Gereksiz HTML elementlerini kaldırın. Virtual scrolling uygulayın." |});
    (lit "critical-request-chains",
     {| tr_title := lit "⛓️ Kritik İstek Zincirlerini Kısaltın";
        tr_action := lit "Kritik kaynakları inline yapın veya preload ile önceden yükleyin." |});
    (lit "bootup-time",
     {| tr_title := lit "⏱️ JavaScript Çalışma Süresini Azaltın";
        tr_action := lit "Ağır JS işlemlerini Web Worker'lara taşıyın. Code splitting yapın." |});
    (lit "mainthread-work-breakdown",
     {| tr_title := lit "🧵 Ana İş Parçacığı Yükünü Azaltın";
        tr_action := lit "JS çalışmasını optimize edin. Uzun görevleri parçalara ayırın." |});
    (lit "font-display",
     {| tr_title := lit "🔤 Font Görüntüleme Stratejisini Optimize Edin";
        tr_action := lit "font-display: swap kullanarak FOIT sorununu önleyin." |});
    (lit "third-party-summary",
     {| tr_title := lit "🔌 3. Parti Scriptleri Optimize Edin";
        tr_action := lit "Gereksiz 3. parti scriptleri kaldırın veya erteleyin (analytics, chat widget vb.)" |});
    (lit "largest-contentful-paint-element",
     {| tr_title := lit "🎯 LCP Elementini Optimize Edin";
        tr_action := lit "Ana hero görselini preload yapın. CDN kullanın. Boyutunu küçültün." |});
    (lit "lcp-lazy-loaded",
     {| tr_title := lit "⚠️ LCP Görseli Lazy Load Edilmiş";
        tr_action := lit "LCP (hero) görselinden loading='lazy' özelliğini kaldırın!" |});
    (lit "total-blocking-time",
     {| tr_title := lit "⏳ Toplam Engelleme Süresini Azaltın";
        tr_action := lit "Uzun JavaScript görevlerini bölün. Ana thread'i serbest bırakın." |});
    (lit "cumulative-layout-shift",
     {| tr_title := lit "📐 Görsel Kaymaları (CLS) Engelleyin";
        tr_action := lit "Görsel ve iframe'lere width/height ekleyin. Font FOUT'unu önleyin." |});
    (lit "prioritize-lcp-image",
     {| tr_title := lit "🖼️ LCP Görselini Önceliklendirin";
        tr_action := lit "fetchpriority='high' ve preload ile LCP görselini önceliklendirin." |});
    (lit "legacy-javascript",
     {| tr_title := lit "📜 Eski JavaScript Polyfill'leri Kaldırın";
        tr_action := lit "Modern tarayıcılar için gereksiz polyfill'leri kaldırın." |});
    (lit "duplicated-javascript",
     {| tr_title := lit "📦 Tekrarlanan JS Modüllerini Temizleyin";
        tr_action := lit "Webpack/Rollup bundle analizi yapın, duplicate modülleri kaldırın." |})
  ].

(** [AUDIT_TRANSLATIONS.get(audit_id, {})]: [None] stands for the empty
    default. *)
Fixpoint translations_get (t : list (pystr * translation)) (k : pystr)
  : option translation :=
  match t with
  | [] => None
  | (k', v) :: rest => if pystr_eqb k' k then Some v else translations_get rest k
  end.

(* ================================================================== *)
(** * [PageSpeedAnalyzer.extract_smart_recommendations] *)
(* ================================================================== *)

Module Extractor.

(** The literal [0.9] of the score test *)
Definition score_threshold : Q := round_b64 (9 # 10).

Definition Qlt_bool (a b : Q) : bool := negb (Qle_bool b a).

(** [v >= f] for a float [f] *)
Definition ge_float (v : json) (f : Q) : result bool :=
  match num_of v with
  | Some q => Return (Qle_bool f q)
  | None => Raise TypeError
  end.

(** [v > 0] *)
Definition gt_zero (v : json) : result bool :=
  match num_of v with
  | Some q => Return (Qlt_bool 0 q)
  | None => Raise TypeError
  end.

(** [v / k] for an [int] literal [k]: true division, always a float *)
Definition truediv (v : json) (k : Z) : result Q :=
  match num_of v with
  | Some q => Return (round_b64 (q / inject_Z k))
  | None => Raise TypeError
  end.

(** The float an [int], [bool] or [float] operand is converted to *)
Definition to_float (v : json) : option Q :=
  match v with
  | JFloat q => Some q
  | JInt _ | JBool _ =>
      match num_of v with Some q => Some (round_b64 q) | None => None end
  | _ => None
  end.

(** [v + f] for a float [f] *)
Definition add_float (v : json) (f : Q) : result Q :=
  match to_float v with
  | Some q => Return (round_b64 (q + f))
  | None => Raise TypeError
  end.

(** [int(v)] for a number *)
Definition int_of (v : json) : result Z :=
  match num_of v with
  | Some q => Return (trunc q)
  | None => Raise TypeError
  end.

(** [v[:n]]; a [dict] cannot be sliced (the fault is a [TypeError] up to
    Python 3.11 and a [KeyError] from 3.12 on). *)
Definition slice_json (n : nat) (v : json) : result json :=
  match v with
  | JStr s => Return (JStr (slice_to n s))
  | JArr l => Return (JArr (firstn n l))
  | _ => Raise TypeError
  end.

(** [v + s] for a string [s] *)
Definition concat_str (v : json) (s : pystr) : result pystr :=
  match v with
  | JStr a => Return (a ++ s)
  | _ => Raise TypeError
  end.

(** [v == "..."] *)
Definition eq_str (v : json) (s : pystr) : bool :=
  match v with
  | JStr a => pystr_eqb a s
  | _ => false
  end.

(** [score is None or score >= 0.9] *)
Definition not_a_problem (score : json) : result bool :=
  match score with
  | JNull => Return true
  | _ => ge_float score score_threshold
  end.

(** One element of the working list [opportunities] *)
Record opportunity : Type := {
  opp_audit_id : pystr;
  opp_title : json;
  opp_action : pystr;
  opp_display_value : json;
  opp_savings : Q;
  opp_score : json;
  opp_savings_ms : json;
  opp_savings_bytes : json
}.

(** One element of the returned list *)
Record recommendation : Type := {
  rec_title : json;
  rec_action : pystr;
  rec_display_value : json;
  rec_savings_ms : json;
  rec_savings_bytes : json
}.

(** The savings annotation: [savings_text] after the [if]/[elif] *)
Definition savings_suffix (savings_ms savings_bytes : json) : result pystr :=
  ms_pos <- gt_zero savings_ms ;;
  if ms_pos : bool then
    n <- int_of savings_ms ;;
    Return (lit " (~" ++ str_of_Z n ++ lit "ms tasarruf)")
  else
    bytes_pos <- gt_zero savings_bytes ;;
    if bytes_pos : bool then
      savings_kb <- truediv savings_bytes 1024 ;;
      Return (lit " (~" ++ str_of_Z (trunc savings_kb) ++ lit "KB tasarruf)")
    else Return [].

(** The body of the [for] loop: [Return None] when the entry is skipped,
    [Return (Some o)] when [o] is appended. *)
Definition process_entry (audit_id : pystr) (audit_data : json)
  : result (option opportunity) :=
  ad <- as_dict audit_data ;;
  details <- as_dict (get ad (lit "details") (JObj [])) ;;
  let audit_type := get details (lit "type") (JStr []) in
  let score := get ad (lit "score") JNull in
  skip <- not_a_problem score ;;
  if skip : bool then Return None
  else
    let is_opportunity := eq_str audit_type (lit "opportunity") in
    let has_savings :=
      dict_mem details (lit "overallSavingsMs")
      || dict_mem details (lit "overallSavingsBytes") in
    if is_opportunity || has_savings then
      let savings_ms := get details (lit "overallSavingsMs") (JInt 0) in
      let savings_bytes := get details (lit "overallSavingsBytes") (JInt 0) in
      bytes_as_ms <- truediv savings_bytes 1000 ;;
      total_savings <- add_float savings_ms bytes_as_ms ;;
      let translation := translations_get AUDIT_TRANSLATIONS audit_id in
      let title :=
        match translation with
        | Some t => JStr (tr_title t)
        | None => get ad (lit "title") (JStr (lit "Bilinmeyen Tavsiye"))
        end in
      (* the default of the second lookup is evaluated before the call *)
      description <- slice_json 150 (get ad (lit "description") (JStr [])) ;;
      let action :=
        match translation with
        | Some t => JStr (tr_action t)
        | None => description
        end in
      let display_value := get ad (lit "displayValue") (JStr []) in
      savings_text <- savings_suffix savings_ms savings_bytes ;;
      action_text <- concat_str action savings_text ;;
      Return (Some {| opp_audit_id := audit_id;
                      opp_title := title;
                      opp_action := action_text;
                      opp_display_value := display_value;
                      opp_savings := total_savings;
                      opp_score := score;
                      opp_savings_ms := savings_ms;
                      opp_savings_bytes := savings_bytes |})
    else Return None.

(** The [for] loop over [audits.items()]; [opportunities] is the list
    built so far. *)
Fixpoint collect (items : dict) (opportunities : list opportunity)
  : result (list opportunity) :=
  match items with
  | [] => Return opportunities
  | (audit_id, audit_data) :: rest =>
      o <- process_entry audit_id audit_data ;;
      collect rest
        (match o with
         | Some x => opportunities ++ [x]
         | None => opportunities
         end)
  end.

(** [opportunities.sort(key=lambda x: x["savings"], reverse=True)].
    The sort of Python is stable, also with [reverse=True]; an element is
    inserted behind the elements of a strictly greater key only. *)
Fixpoint insert_desc (x : opportunity) (l : list opportunity)
  : list opportunity :=
  match l with
  | [] => [x]
  | y :: l' =>
      if Qlt_bool (opp_savings x) (opp_savings y)
      then y :: insert_desc x l'
      else x :: l
  end.

Definition sort_desc (l : list opportunity) : list opportunity :=
  fold_right insert_desc [] l.

(** The dictionary built by the final comprehension *)
Definition to_recommendation (o : opportunity) : recommendation :=
  {| rec_title := opp_title o;
     rec_action := opp_action o;
     rec_display_value := opp_display_value o;
     rec_savings_ms := opp_savings_ms o;
     rec_savings_bytes := opp_savings_bytes o |}.

Definition extract_smart_recommendations (audits : dict)
  : result (list recommendation) :=
  opportunities <- collect audits [] ;;
  Return (map to_recommendation (sort_desc opportunities)).

End Extractor.

(* ================================================================== *)
(** * [PageSpeedAnalyzer.analyze] *)
(* ================================================================== *)

Module Analyzer.

Import Extractor.

(** What [requests.get] hands back.  [json_body] is [None] when the body
    does not decode, in which case [response.json()] raises. *)
Record response : Type := {
  status_code : Z;
  json_body : option json;
  text : pystr
}.

(** The faults [requests.get] itself raises *)
Inductive call_fault : Type :=
| TimedOut           (* requests.exceptions.Timeout *)
| TransportFailure   (* another requests.exceptions.RequestException *)
| OtherFault.        (* anything else below Exception *)

(** One behaviour of the external call *)
Inductive call_outcome : Type :=
| CallRaises (f : call_fault)
| CallReturns (r : response).

Definition exn_of_fault (f : call_fault) : exn :=
  match f with
  | TimedOut => Timeout
  | TransportFailure => RequestException
  | OtherFault => OtherException
  end.

(** The returned dictionary *)
Record metrics : Type := {
  score : Z;
  lcp : Q;
  cls : num;
  recommendations : list recommendation
}.

(** The lines handed to [Logger] *)
Inductive log_line : Type :=
| LogScanning (url : pystr)
| LogDone (score : Z) (lcp : Q) (cls : num)
| LogTimeout (url : pystr)
| LogHTTPError (url : pystr)
| LogStatusCode (code : Z)
| LogAPIMessage (message : json)
| LogReason (reason : json)
| LogResponseText (body : pystr)      (* the key is redacted before printing *)
| LogConnection (url : pystr)
| LogMissingField (url : pystr)
| LogUnexpected (url : pystr).

(** [response.raise_for_status()] *)
Definition raise_for_status (r : response) : result unit :=
  if ((400 <=? status_code r) && (status_code r <? 600))%Z
  then Raise HTTPError
  else Return tt.

(** [response.json()]; the fault is a [RequestException] since
    requests 2.27 (a plain [ValueError] before). *)
Definition response_json (r : response) : result json :=
  match json_body r with
  | Some j => Return j
  | None => Raise RequestException
  end.

(** [round(v, 4)]: an [int] stays an [int] *)
Definition round4 (v : json) : result num :=
  match v with
  | JFloat q => Return (NFloat (round_ndigits q 4))
  | JInt z => Return (NInt z)
  | JBool b => Return (NInt (if b then 1 else 0))
  | _ => Raise TypeError
  end.

(** [quote(string, safe)] of [urllib.parse]: the string is encoded as
    UTF-8, errors being strict, and every byte that is neither a letter,
    a digit, one of [_.-~] nor in [safe] is written [%XX]. *)
Definition always_safe (b : N) : bool :=
  ((65 <=? b) && (b <=? 90) || (97 <=? b) && (b <=? 122)
   || (48 <=? b) && (b <=? 57)
   || (b =? 95) || (b =? 46) || (b =? 45) || (b =? 126))%N.

Definition hex_digit (n : N) : N :=
  (if n <? 10 then 48 + n else 55 + n)%N.

Definition quote_byte (safe : pystr) (b : N) : pystr :=
  if always_safe b || existsb (N.eqb b) safe
  then [b]
  else [37%N; hex_digit (b / 16); hex_digit (b mod 16)].

Definition quote (string safe : pystr) : result pystr :=
  bs <- encode_utf8 string ;;
  Return (flat_map (quote_byte safe) bs).

Section WithBuiltins.

(** [int(s)] for a string [s], a builtin of Python: [None] when it raises
    [ValueError]. *)
Variable int_of_str : pystr -> option Z.

(** [int((v or 0) * 100)] *)
Definition scale_score (v : json) : result Z :=
  match (if truthy v then v else JInt 0) with
  | JInt z => Return (z * 100)%Z
  | JBool b => Return (if b then 100 else 0)%Z
  | JFloat q => Return (trunc (round_b64 (q * 100)))
  | JStr s =>
      match int_of_str (concat (repeat s 100)) with
      | Some z => Return z
      | None => Raise ValueError
      end
  | JNull | JArr _ | JObj _ => Raise TypeError
  end.

(** The statements of the [try] block *)
Definition try_block (call : call_outcome) : result metrics :=
  match call with
  | CallRaises f => Raise (exn_of_fault f)
  | CallReturns r =>
      _ <- raise_for_status r ;;
      data <- response_json r ;;
      data_d <- as_dict data ;;
      lighthouse <- as_dict (get data_d (lit "lighthouseResult") (JObj [])) ;;
      let categories := get lighthouse (lit "categories") (JObj []) in
      let audits := get lighthouse (lit "audits") (JObj []) in
      categories_d <- as_dict categories ;;
      perf_category <- as_dict (get categories_d (lit "performance") (JObj [])) ;;
      score <- scale_score (get perf_category (lit "score") (JInt 0)) ;;
      audits_d <- as_dict audits ;;
      lcp_audit <-
        as_dict (get audits_d (lit "largest-contentful-paint") (JObj [])) ;;
      let lcp_ms := get lcp_audit (lit "numericValue") (JInt 0) in
      lcp_s <- truediv lcp_ms 1000 ;;
      let lcp_seconds := round_ndigits lcp_s 2 in
      cls_audit <-
        as_dict (get audits_d (lit "cumulative-layout-shift") (JObj [])) ;;
      cls_value <- round4 (get cls_audit (lit "numericValue") (JInt 0)) ;;
      recommendations <- extract_smart_recommendations audits_d ;;
      Return {| score := score;
                lcp := lcp_seconds;
                cls := cls_value;
                recommendations := recommendations |}
  end.

(** [v[0]] *)
Definition first_item (v : json) : result json :=
  match v with
  | JArr (x :: _) => Return x
  | JArr [] => Raise OtherException      (* IndexError *)
  | JStr (c :: _) => Return (JStr [c])
  | JStr [] => Raise OtherException      (* IndexError *)
  | JObj _ => Raise KeyError             (* the keys of a decoded object are strings *)
  | _ => Raise TypeError
  end.

(** The inner [try] of the [HTTPError] handler *)
Definition error_details (r : response) : result (list log_line) :=
  error_json <- response_json r ;;
  error_d <- as_dict error_json ;;
  error_1 <- as_dict (get error_d (lit "error") (JObj [])) ;;
  let error_message := get error_1 (lit "message") (JStr (lit "Bilinmeyen hata")) in
  error_2 <- as_dict (get error_d (lit "error") (JObj [])) ;;
  first <- first_item (get error_2 (lit "errors") (JArr [JObj []])) ;;
  first_d <- as_dict first ;;
  let error_reason := get first_d (lit "reason") (JStr []) in
  Return (LogAPIMessage error_message
          :: (if truthy error_reason then [LogReason error_reason] else [])).

(** The [except] clauses, tried in order; every one of them ends in
    [return None].  [r] is the response when one was received. *)
Definition handlers (url : pystr) (r : option response) (e : exn)
  : list log_line * result (option metrics) :=
  match e with
  | Timeout => ([LogTimeout url], Return None)
  | HTTPError =>
      match r with
      | Some r =>
          ([LogHTTPError url; LogStatusCode (status_code r)]
           ++ match error_details r with
              | Return ls => ls
              | Raise _ => [LogResponseText (slice_to 300 (text r))]
              end,
           Return None)
      | None => ([LogHTTPError url], Raise OtherException) (* [response] unbound *)
      end
  | RequestException => ([LogConnection url], Return None)
  | KeyError => ([LogMissingField url], Return None)
  | AttributeError | TypeError | ValueError | UnicodeEncodeError
  | OtherException =>
      ([LogUnexpected url], Return None)
  end.

Definition response_of (call : call_outcome) : option response :=
  match call with
  | CallReturns r => Some r
  | CallRaises _ => None
  end.

(** [analyze(url)] when the external call behaves as [call]: the lines
    logged and what the caller receives.  The URL is stripped, logged and
    quoted before the [try] block is entered, so that a fault of [quote]
    reaches the caller.  The quoted URL and the other request parameters
    only feed the external call, whose behaviour is [call].  [print] is
    taken to write every line it is given: on a stream that cannot
    encode a line it raises the [UnicodeEncodeError] itself, for the
    first line already, which is outside the [try] block as well. *)
Definition analyze (url : pystr) (call : call_outcome)
  : list log_line * result (option metrics) :=
  let url := strip url in
  match quote url (lit ":/?=&") with
  | Raise e => ([LogScanning url], Raise e)
  | Return safe_url =>
      match try_block call with
      | Return m =>
          ([LogScanning url; LogDone (score m) (lcp m) (cls m)],
           Return (Some m))
      | Raise e =>
          let (ls, r) := handlers url (response_of call) e in
          (LogScanning url :: ls, r)
      end
  end.

End WithBuiltins.

End Analyzer.

(* ================================================================== *)
(** * [ReportGenerator.generate_report] *)
(* ================================================================== *)

Module Report.

(** A recommendation as the report reads it: [None] is an absent key,
    for which [rec.get] supplies its default. *)
Record rec_item : Type := {
  title : option pystr;
  action : option pystr;
  display_value : option pystr
}.

(** A site result: [label], [url] and the fields of the metrics record. *)
Record site_result : Type := {
  label : pystr;
  url : pystr;
  score : Z;
  lcp : num;
  cls : num;
  recommendations : list rec_item
}.

Definition WIDTH : nat := 58.

(** ["║" + s + "║"] *)
Definition boxed (s : pystr) : pystr := lit "║" ++ s ++ lit "║".

(** ["║" + s.ljust(58) + "║"] *)
Definition row (s : pystr) : pystr := boxed (ljust WIDTH s).

Definition blank_row : pystr := row (lit " ").

(** [left + "═" * 58 + right] *)
Definition rule (left right : string) : pystr :=
  lit left ++ concat (repeat (lit "═") WIDTH) ++ lit right.

Section WithBuiltins.

(** [str(x)] for a float [x], a builtin of Python *)
Variable repr_float : Q -> pystr.

Definition str_of_num (n : num) : pystr :=
  match n with
  | NInt z => str_of_Z z
  | NFloat q => repr_float q
  end.

(** The body of the loop over [competitors] *)
Definition comparison_row (my_site comp : site_result) : pystr :=
  let diff := (score my_site - score comp)%Z in
  let (status, detail) :=
    if (diff >? 0)%Z then
      (lit "✅ " ++ label comp,
       lit "→ " ++ str_of_Z (score comp) ++ lit " puan ("
         ++ str_of_Z diff ++ lit " puan gerideler)")
    else if (diff <? 0)%Z then
      (lit "⚠️  " ++ label comp,
       lit "→ " ++ str_of_Z (score comp) ++ lit " puan ("
         ++ str_of_Z (Z.abs diff) ++ lit " puan ÖNDEler!)")
    else
      (lit "🔄 " ++ label comp,
       lit "→ " ++ str_of_Z (score comp) ++ lit " puan (Eşit)") in
  let line := lit "    " ++ ljust 25 status ++ lit " " ++ detail in
  row line.

(** The loop over [words]: the rows appended to the report, given the
    line under construction. *)
Fixpoint wrap_words (words : list pystr) (current_line : pystr) : list pystr :=
  match words with
  | [] =>
      if nonempty (strip current_line) then [row current_line] else []
  | word :: rest =>
      if length (current_line ++ word) <=? 54
      then wrap_words rest (current_line ++ word ++ lit " ")
      else row current_line :: wrap_words rest (lit "         " ++ word ++ lit " ")
  end.

(** The rows of the action text of one recommendation, [i <= 5] *)
Definition action_rows (r : rec_item) : list pystr :=
  let action := match action r with Some a => a | None => [] end in
  if nonempty action
  then wrap_words (split action) (lit "       → ")
  else [].

Definition priority_emoji (i : nat) : pystr :=
  if i =? 1 then lit "🔴"
  else if i <=? 3 then lit "🟠"
  else lit "🟡".

Definition title_row (i : nat) (r : rec_item) : pystr :=
  let title := match title r with Some t => t | None => lit "Bilinmeyen" end in
  let title :=
    if 48 <? length title then slice_to 45 title ++ lit "..." else title in
  let title_line :=
    lit "    " ++ priority_emoji i ++ lit " " ++ str_of_Z (Z.of_nat i)
      ++ lit ". " ++ title in
  let title_line :=
    if 56 <? length title_line
    then slice_to 53 title_line ++ lit "..."
    else title_line in
  row title_line.

Definition display_rows (r : rec_item) : list pystr :=
  let display_val :=
    match display_value r with Some d => d | None => [] end in
  let display_val :=
    if nonempty display_val
    then lit " [" ++ display_val ++ lit "]"
    else display_val in
  if nonempty display_val then
    let dv_line := lit "       Potansiyel Kazanç: " ++ display_val in
    let dv_line :=
      if 56 <? length dv_line then slice_to 53 dv_line ++ lit "..." else dv_line in
    [row dv_line]
  else [].

(** The body of the loop over [enumerate(recommendations, 1)] *)
Definition item_rows (total_recs i : nat) (r : rec_item) : list pystr :=
  [title_row i r]
  ++ display_rows r
  ++ (if i <=? 5 then action_rows r else [])
  ++ (if (i mod 3 =? 0) && (i <? total_recs) then [blank_row] else []).

(** The loop itself: [report] is the list built so far and [i] the
    number of the next recommendation. *)
Fixpoint items_loop (total_recs i : nat) (recs : list rec_item)
    (report : list pystr) : list pystr :=
  match recs with
  | [] => report
  | r :: rest =>
      items_loop total_recs (S i) rest (report ++ item_rows total_recs i r)
  end.

(** The action-items section below its two heading rows *)
Definition action_items (my_site : site_result) : list pystr :=
  match recommendations my_site with
  | [] => [row (lit "    🎉 Harika! Kritik bir iyileştirme önerisi yok.")]
  | recs =>
      let total_recs := length recs in
      items_loop total_recs 1 recs
        [row (lit "    Toplam " ++ str_of_Z (Z.of_nat total_recs)
                ++ lit " iyileştirme fırsatı bulundu:");
         blank_row]
  end.

(** One row of the summary table *)
Definition summary_row (s : site_result) : pystr :=
  ljust 20 (slice_to 18 (label s)) ++ lit " "
    ++ ljust 8 (str_of_Z (score s)) ++ lit " "
    ++ ljust 8 (str_of_num (lcp s)) ++ lit " "
    ++ ljust 8 (str_of_num (cls s)).

(** The box, from its top border to its bottom border *)
Definition box_rows (date_str : pystr) (my_site : site_result)
    (competitors : list site_result) : list pystr :=
  [rule "╔" "╗";
   boxed (center WIDTH (lit "🚀 SEO-PULSE PERFORMANS RAPORU"));
   boxed (center WIDTH date_str);
   rule "╠" "╣";
   row (lit " 📊 SİTEMİZ");
   row (lit "    URL: " ++ url my_site);
   row (lit "    Performance: " ++ str_of_Z (score my_site)
          ++ lit "/100 | LCP: " ++ str_of_num (lcp my_site)
          ++ lit "s | CLS: " ++ str_of_num (cls my_site));
   rule "╠" "╣";
   row (lit " 🏁 RAKİP KARŞILAŞTIRMASI");
   blank_row]
  ++ map (comparison_row my_site) competitors
  ++ [rule "╠" "╣";
      row (lit " 📋 YAPILMASI GEREKENLER (Action Items)");
      blank_row]
  ++ action_items my_site
  ++ [blank_row;
      rule "╚" "╝"].

(** The list [report] when [generate_report] returns; [date_str] is
    [datetime.now().strftime("%d %B %Y")]. *)
Definition report_lines (date_str : pystr) (my_site : site_result)
    (competitors : list site_result) : list pystr :=
  box_rows date_str my_site competitors
  ++ [[];
      lit "📈 METRİK DETAYLARI:";
      concat (repeat (lit "─") 40);
      ljust 20 (lit "Site") ++ lit " " ++ ljust 8 (lit "Puan") ++ lit " "
        ++ ljust 8 (lit "LCP") ++ lit " " ++ ljust 8 (lit "CLS");
      concat (repeat (lit "─") 40);
      summary_row my_site]
  ++ map summary_row competitors
  ++ [concat (repeat (lit "─") 40);
      [];
      lit "Bu rapor SEO-Pulse tarafından otomatik oluşturulmuştur."].

(** ["\n".join(report)] *)
Fixpoint join_lines (ls : list pystr) : pystr :=
  match ls with
  | [] => []
  | [l] => l
  | l :: rest => l ++ 10%N :: join_lines rest
  end.

Definition generate_report (date_str : pystr) (my_site : site_result)
    (competitors : list site_result) : pystr :=
  join_lines (report_lines date_str my_site competitors).

End WithBuiltins.

(** The lines of a text: [text.split("\n")] *)
Fixpoint lines_go (s : pystr) (cur : pystr) : list pystr :=
  match s with
  | [] => [rev cur]
  | c :: rest =>
      if (c =? 10)%N then rev cur :: lines_go rest [] else lines_go rest (c :: cur)
  end.

Definition lines_of (s : pystr) : list pystr := lines_go s [].

(** A line is boxed when it starts and ends with the border character;
    its interior is what lies between the two. *)
Definition border : codepoint := 9553%N.

Definition is_boxed (l : pystr) : bool :=
  match l with
  | c :: rest => (c =? border)%N && (last rest 0%N =? border)%N
                 && negb (length rest =? 0)
  | [] => false
  end.

Definition interior (l : pystr) : pystr := removelast (tl l).

End Report.

(* ================================================================== *)
(** * [ReportGenerator._sanitize_for_email] and the message of
      [ReportGenerator.send_email] *)
(* ================================================================== *)

Module Mailer.

(** [text.replace(old, new)] for a pattern [old] of one character *)
Fixpoint replace_char (old : codepoint) (new : pystr) (text : pystr) : pystr :=
  match text with
  | [] => []
  | c :: rest =>
      (if (c =? old)%N then new else [c]) ++ replace_char old new rest
  end.

(** The dictionary [replacements].  Its literal names the key of the
    no-break space twice, as ['\xa0'] and as ['\u00a0']; the dictionary
    holds it once, at its first place. *)
Definition replacements : list (codepoint * pystr) :=
  [ (160%N, [space]);    (* no-break space *)
    (8203%N, []);        (* zero-width space *)
    (8204%N, []);        (* zero-width non-joiner *)
    (8205%N, []);        (* zero-width joiner *)
    (65279%N, []) ].     (* byte-order mark *)

(** [text.encode('utf-8', errors='replace').decode('utf-8')]: a lone
    surrogate cannot be encoded and becomes a question mark. *)
Definition utf8_replace (text : pystr) : pystr :=
  map (fun c => if is_surrogate c then 63%N else c) text.

(** [text.encode('ascii', 'replace').decode('ascii')] *)
Definition ascii_replace (text : pystr) : pystr :=
  map (fun c => if (c <? 128)%N then c else 63%N) text.

Definition sanitize_for_email (text : pystr) : pystr :=
  if nonempty text
  then utf8_replace
         (fold_left (fun t r => replace_char (fst r) (snd r) t)
                    replacements text)
  else [].

(** The message handed to the transport *)
Record message : Type := {
  msg_from : pystr;
  msg_to : pystr;
  msg_subject : pystr;
  msg_body : pystr
}.

(** The message [send_email] builds: [sender] is [Config.EMAIL_SENDER]
    and [date_str] is [datetime.now().strftime('%d/%m/%Y')]. *)
Definition build_message (sender date_str report_content : pystr) : message :=
  let safe_content := sanitize_for_email report_content in
  let subject_text := lit "SEO-Pulse Performans Raporu - " ++ date_str in
  let subject_text := sanitize_for_email subject_text in
  let subject_text := ascii_replace subject_text in
  {| msg_from := sender;
     msg_to := sender;
     msg_subject := subject_text;
     msg_body := safe_content |}.

(** What the SMTP session does with the message *)
Inductive delivery : Type :=
| Delivered
| AuthenticationFailed   (* smtplib.SMTPAuthenticationError *)
| SMTPFailed             (* another smtplib.SMTPException *)
| DeliveryFault.         (* anything else below Exception *)

(** [send_email(report_content)]: every [except] clause returns
    [False]. *)
Definition send_email (sender date_str report_content : pystr)
    (d : delivery) : message * bool :=
  (build_message sender date_str report_content,
   match d with Delivered => true | _ => false end).

End Mailer.

(* ================================================================== *)
(** * [Config.validate] and the orchestrator [main] *)
(* ================================================================== *)

Module Orchestrator.

Import Extractor Analyzer.

(** The settings read from the environment *)
Record config : Type := {
  SUPABASE_URL : pystr;
  SUPABASE_KEY : pystr;
  PAGESPEED_KEY : pystr;
  EMAIL_SENDER : pystr;
  EMAIL_PASSWORD : pystr
}.

(** [all(required)] *)
Definition validate (c : config) : bool :=
  forallb nonempty
    [SUPABASE_URL c; SUPABASE_KEY c; PAGESPEED_KEY c;
     EMAIL_SENDER c; EMAIL_PASSWORD c].

Definition MY_SITE_LABEL : pystr := lit "Benim Sitem".

Definition API_RATE_LIMIT_SECONDS : Z := 5.

(** A row of the table [sites], with text columns [label] and
    [site_url]; [None] is an absent key. *)
Record site : Type := {
  id : option json;
  label : option pystr;
  site_url : option pystr
}.

(** The dictionary [result] kept for a site that was measured *)
Record site_data : Type := {
  sd_label : pystr;
  sd_url : pystr;
  sd_score : Z;
  sd_lcp : Q;
  sd_cls : num;
  sd_recommendations : list recommendation
}.

(** What the run does to the outside, in order *)
Inductive effect : Type :=
| Analyzed (url : pystr)                   (* PageSpeedAnalyzer.analyze *)
| Saved (site_id : json) (m : metrics)     (* db.save_speed_log *)
| Slept (seconds : Z).                     (* time.sleep *)

(** The variables of the loop *)
Record run : Type := {
  my_site_data : option site_data;
  competitor_data : list site_data;
  success_count : nat;
  error_count : nat;
  effects : list effect
}.

Definition start : run :=
  {| my_site_data := None;
     competitor_data := [];
     success_count := 0;
     error_count := 0;
     effects := [] |}.

Section WithBuiltins.

Variable int_of_str : pystr -> option Z.

(** The body of the loop for the site of number [index], the external
    call behaving as [call].  [db.save_speed_log] catches its own
    faults and its result is not used. *)
Definition visit (total index : nat) (s : site) (call : call_outcome)
    (st : run) : run :=
  let site_url := match site_url s with Some u => u | None => [] end in
  let site_label :=
    match label s with Some l => l | None => lit "Bilinmeyen" end in
  let site_id := match id s with Some i => i | None => JNull end in
  let st :=
    match snd (analyze int_of_str site_url call) with
    | Return (Some metrics) =>
        let result :=
          {| sd_label := site_label;
             sd_url := site_url;
             sd_score := score metrics;
             sd_lcp := lcp metrics;
             sd_cls := cls metrics;
             sd_recommendations := recommendations metrics |} in
        {| my_site_data :=
             if pystr_eqb site_label MY_SITE_LABEL
             then Some result else my_site_data st;
           competitor_data :=
             if pystr_eqb site_label MY_SITE_LABEL
             then competitor_data st else competitor_data st ++ [result];
           success_count := S (success_count st);
           error_count := error_count st;
           effects := effects st ++ [Analyzed site_url; Saved site_id metrics] |}
    | Return None | Raise _ =>
        {| my_site_data := my_site_data st;
           competitor_data := competitor_data st;
           success_count := success_count st;
           error_count := S (error_count st);
           effects := effects st ++ [Analyzed site_url] |}
    end in
  if index <? total - 1
  then {| my_site_data := my_site_data st;
          competitor_data := competitor_data st;
          success_count := success_count st;
          error_count := error_count st;
          effects := effects st ++ [Slept API_RATE_LIMIT_SECONDS] |}
  else st.

(** The loop over [enumerate(sites)]; every site comes with the
    behaviour of the external call for it. *)
Fixpoint sites_loop (total index : nat) (sites : list (site * call_outcome))
    (st : run) : run :=
  match sites with
  | [] => st
  | (s, call) :: rest =>
      sites_loop total (S index) rest (visit total index s call st)
  end.

(** How [main] ends: with [sys.exit(code)], or normally after the loop,
    with the arguments of [generate_report] when a report is made. *)
Inductive ending : Type :=
| Exited (code : Z)
| Completed (st : run) (report_for : option (site_data * list site_data)).

(** [main()]: [connected] tells whether [DatabaseManager()] succeeded,
    [sites] is what [db.get_sites()] returned (the empty list when it
    failed). *)
Definition main (cfg : config) (connected : bool)
    (sites : list (site * call_outcome)) : ending :=
  if negb (validate cfg) then Exited 1
  else if negb connected then Exited 1
  else
    match sites with
    | [] => Exited 0
    | _ =>
        let st := sites_loop (length sites) 0 sites start in
        Completed st
          match my_site_data st with
          | Some mine => Some (mine, competitor_data st)
          | None => None
          end
    end.

End WithBuiltins.

End Orchestrator.

(* ================================================================== *)
(** * Notions used in the statements *)
(* ================================================================== *)

Module Notions.

Import Extractor.

(** What one entry of [audits] adds to [opportunities]. *)
Definition appended (kv : pystr * json) : list opportunity :=
  match process_entry (fst kv) (snd kv) with
  | Return (Some o) => [o]
  | _ => []
  end.

(** The inclusion test on the [details] of an entry *)
Definition wanted (details : dict) : bool :=
  eq_str (get details (lit "type") (JStr [])) (lit "opportunity")
  || (dict_mem details (lit "overallSavingsMs")
      || dict_mem details (lit "overallSavingsBytes")).

(** An entry is below the threshold when its score is a number smaller
    than [0.9]. *)
Definition below_threshold (score : json) : bool :=
  match score with
  | JNull => false
  | _ => match num_of score with
         | Some s => Qlt_bool s score_threshold
         | None => false
         end
  end.

(** A matching entry: a dictionary with a score below the threshold that
    passes the inclusion test. *)
Definition matching (kv : pystr * json) : bool :=
  match snd kv with
  | JObj ad =>
      match get ad (lit "details") (JObj []) with
      | JObj dd => below_threshold (get ad (lit "score") JNull) && wanted dd
      | _ => false
      end
  | _ => false
  end.

(** The action text before the savings annotation is appended *)
Definition base_action (audit_id : pystr) (ad : dict) (base : pystr) : Prop :=
  match translations_get AUDIT_TRANSLATIONS audit_id with
  | Some t => base = tr_action t
  | None =>
      exists s, get ad (lit "description") (JStr []) = JStr s
                /\ base = slice_to 150 s
  end.

(** The annotation the specification describes, for savings [ms] and
    [bytes] *)
Definition expected_suffix (ms bytes : Q) : pystr :=
  if Qlt_bool 0 ms then
    lit " (~" ++ str_of_Z (trunc ms) ++ lit "ms tasarruf)"
  else if Qlt_bool 0 bytes then
    lit " (~" ++ str_of_Z (trunc (round_b64 (bytes / inject_Z 1024)))
      ++ lit "KB tasarruf)"
  else [].

(** What the loop appends for an included entry [k] with fields [ad] and
    details [dd] *)
Definition included_as (k : pystr) (ad dd : dict) (o : opportunity) : Prop :=
  opp_audit_id o = k
  /\ opp_score o = get ad (lit "score") JNull
  /\ opp_display_value o = get ad (lit "displayValue") (JStr [])
  /\ opp_savings_ms o = get dd (lit "overallSavingsMs") (JInt 0)
  /\ opp_savings_bytes o = get dd (lit "overallSavingsBytes") (JInt 0)
  /\ exists ms bytes a base,
       num_of (opp_savings_ms o) = Some ms
       /\ num_of (opp_savings_bytes o) = Some bytes
       /\ to_float (opp_savings_ms o) = Some a
       /\ opp_savings o = round_b64 (a + round_b64 (bytes / inject_Z 1000))
       /\ base_action k ad base
       /\ opp_action o = base ++ expected_suffix ms bytes.

(** The number a savings field holds, 0 when it holds none *)
Definition number (v : json) : Q :=
  match num_of v with Some q => q | None => 0%Q end.

(** The action text of the entry [k] before the annotation: the
    translated action when the identifier is in the table, otherwise the
    first 150 characters of the description *)
Definition base_text (k : pystr) (ad : dict) : pystr :=
  match translations_get AUDIT_TRANSLATIONS k with
  | Some t => tr_action t
  | None =>
      match get ad (lit "description") (JStr []) with
      | JStr s => slice_to 150 s
      | _ => []
      end
  end.

(** The recommendation the specification describes for the entry [k]
    with fields [ad] and details [dd] *)
Definition entry_recommendation (k : pystr) (ad dd : dict) : recommendation :=
  let ms := get dd (lit "overallSavingsMs") (JInt 0) in
  let bytes := get dd (lit "overallSavingsBytes") (JInt 0) in
  {| rec_title :=
       match translations_get AUDIT_TRANSLATIONS k with
       | Some t => JStr (tr_title t)
       | None => get ad (lit "title") (JStr (lit "Bilinmeyen Tavsiye"))
       end;
     rec_action := base_text k ad ++ expected_suffix (number ms) (number bytes);
     rec_display_value := get ad (lit "displayValue") (JStr []);
     rec_savings_ms := ms;
     rec_savings_bytes := bytes |}.

(** What the specification has an entry contribute: its recommendation
    when it is a matching entry, nothing otherwise *)
Definition expected (kv : pystr * json) : list recommendation :=
  match snd kv with
  | JObj ad =>
      match get ad (lit "details") (JObj []) with
      | JObj dd =>
          if below_threshold (get ad (lit "score") JNull) && wanted dd
          then [entry_recommendation (fst kv) ad dd]
          else []
      | _ => []
      end
  | _ => []
  end.

(** The ranking key recomputed from a returned recommendation:
    [savings_ms + savings_bytes / 1000] *)
Definition rec_key (r : recommendation) : Q :=
  match to_float (rec_savings_ms r), num_of (rec_savings_bytes r) with
  | Some a, Some b => round_b64 (a + round_b64 (b / inject_Z 1000))
  | _, _ => 0%Q
  end.

(** Descending order of two keys *)
Definition key_ge (a b : recommendation) : Prop := (rec_key b <= rec_key a)%Q.

Definition has_key (q : Q) (r : recommendation) : bool :=
  Qeq_bool (rec_key r) q.

(** Descending order of the keys of the working list *)
Definition opp_ge (a b : opportunity) : Prop :=
  (opp_savings b <= opp_savings a)%Q.

Definition opp_has_key (q : Q) (o : opportunity) : bool :=
  Qeq_bool (opp_savings o) q.

(** The elements of the working list that stem from the entry [k] *)
Definition from_audit (k : pystr) (o : opportunity) : bool :=
  pystr_eqb (opp_audit_id o) k.

(** A text that can be encoded as UTF-8: it holds no surrogate. *)
Definition encodable (s : pystr) : Prop :=
  Forall (fun c => is_surrogate c = false) s.

(** The nearest integer to [score * 100], as [round] computes it *)
Definition rounded_score (q : Q) : Z := round_half_even (round_b64 (q * 100)).

(** Words, each followed by a space *)
Definition spaced (ws : list pystr) : pystr :=
  concat (map (fun w => w ++ lit " ") ws).

(** The rows of a wrapped text whose lines hold the words [g], [gs]: the
    first row opens with the arrow, the others with the indentation. *)
Definition block_rows (g : list pystr) (gs : list (list pystr)) : list pystr :=
  Report.row (lit "       → " ++ spaced g)
  :: map (fun ws => Report.row (lit "         " ++ spaced ws)) gs.

(** No line is broken early: the first word of every further line would
    have brought the line before it, [line], beyond 54 characters. *)
Fixpoint breaks_late (line : pystr) (gs : list (list pystr)) : Prop :=
  match gs with
  | [] => True
  | ws :: rest =>
      match ws with
      | [] => False
      | w :: _ => 54 < length (line ++ w)
      end
      /\ breaks_late (lit "         " ++ spaced ws) rest
  end.

(** The rows of the action text [a], wrapped at 54 characters: the lines
    hold the words of [a], all of them and in their order; a line has at
    most 54 characters before the space that ends it, unless it is a
    continuation line of a single word; and no line is broken early. *)
Definition wrapped_block (a : pystr) (rows : list pystr) : Prop :=
  exists g gs,
    concat (g :: gs) = split a
    /\ rows = block_rows g gs
    /\ length (lit "       → " ++ spaced g) <= 55
    /\ Forall (fun ws => length (lit "         " ++ spaced ws) <= 55
                         \/ length ws = 1) gs
    /\ breaks_late (lit "       → " ++ spaced g) gs.

(** The rows of the action text of a recommendation: none when it has
    no action text or an empty one. *)
Definition action_block (a : option pystr) (rows : list pystr) : Prop :=
  match a with
  | Some (c :: s) => wrapped_block (c :: s) rows
  | _ => rows = []
  end.

(** An audit record of the data model: a dictionary whose [details], when
    present, is a dictionary, whose [score] is null or a number, whose
    savings, when present, are numbers and whose [description], when
    present, is a string. *)
Definition is_number (v : json) : bool :=
  match num_of v with Some _ => true | None => false end.

Definition is_audit_record (v : json) : bool :=
  match v with
  | JObj ad =>
      match get ad (lit "details") (JObj []) with
      | JObj dd =>
          match get ad (lit "score") JNull with
          | JNull => true
          | s => is_number s
          end
          && is_number (get dd (lit "overallSavingsMs") (JInt 0))
          && is_number (get dd (lit "overallSavingsBytes") (JInt 0))
          && match get ad (lit "description") (JStr []) with
             | JStr _ => true
             | _ => false
             end
      | _ => false
      end
  | _ => false
  end.

(** [l] starts with [p] *)
Fixpoint starts_with (p l : pystr) : bool :=
  match p, l with
  | [], _ => true
  | a :: p', b :: l' => (a =? b)%N && starts_with p' l'
  | _ :: _, [] => false
  end.

(** The first row of an action text *)
Definition is_arrow_row (l : pystr) : bool :=
  starts_with (lit "║       → ") l.

(** The characters the sanitizer removes or replaces: the no-break
    space, the zero-width space, non-joiner and joiner, the byte-order
    mark, and the surrogates. *)
Definition unwanted (c : codepoint) : bool :=
  ((c =? 160) || (c =? 8203) || (c =? 8204) || (c =? 8205) || (c =? 65279))%N
  || is_surrogate c.
(** What becomes of one character *)
Definition clean_char (c : codepoint) : pystr :=
  if (c =? 160)%N then [space]
  else if ((c =? 8203) || (c =? 8204) || (c =? 8205) || (c =? 65279))%N then []
  else if is_surrogate c then [63%N]
  else [c].

(** The record [analyze] returns for a site, [None] when it returns
    none or raises: the URL is quoted, the request made and its outcome
    read. *)
Definition metrics_for (int_of_str : pystr -> option Z)
    (sc : Orchestrator.site * Analyzer.call_outcome)
  : option Analyzer.metrics :=
  let site_url :=
    match Orchestrator.site_url (fst sc) with Some u => u | None => [] end in
  match Analyzer.quote (strip site_url) (lit ":/?=&") with
  | Return _ =>
      match Analyzer.try_block int_of_str (snd sc) with
      | Return m => Some m
      | Raise _ => None
      end
  | Raise _ => None
  end.

(** The result of a site that was measured, [None] for a site whose
    analysis gave nothing *)
Definition measured (int_of_str : pystr -> option Z)
    (sc : Orchestrator.site * Analyzer.call_outcome)
  : option Orchestrator.site_data :=
  let site_url :=
    match Orchestrator.site_url (fst sc) with Some u => u | None => [] end in
  match metrics_for int_of_str sc with
  | Some m =>
      Some {| Orchestrator.sd_label :=
                match Orchestrator.label (fst sc) with
                | Some l => l
                | None => lit "Bilinmeyen"
                end;
              Orchestrator.sd_url := site_url;
              Orchestrator.sd_score := Analyzer.score m;
              Orchestrator.sd_lcp := Analyzer.lcp m;
              Orchestrator.sd_cls := Analyzer.cls m;
              Orchestrator.sd_recommendations := Analyzer.recommendations m |}
  | None => None
  end.

Definition is_primary (d : Orchestrator.site_data) : bool :=
  pystr_eqb (Orchestrator.sd_label d) Orchestrator.MY_SITE_LABEL.

Definition is_sleep (e : Orchestrator.effect) : bool :=
  match e with Orchestrator.Slept _ => true | _ => false end.

Definition is_save (e : Orchestrator.effect) : bool :=
  match e with Orchestrator.Saved _ _ => true | _ => false end.

(** The results of the sites that were measured, in the order of the
    sites *)
Definition results (int_of_str : pystr -> option Z)
    (sites : list (Orchestrator.site * Analyzer.call_outcome))
  : list Orchestrator.site_data :=
  flat_map (fun sc => match measured int_of_str sc with
                      | Some d => [d]
                      | None => []
                      end) sites.

(** The primary result in force after the results [l], starting from
    [init]: a later one replaces an earlier one. *)
Definition latest_primary (l : list Orchestrator.site_data)
    (init : option Orchestrator.site_data) : option Orchestrator.site_data :=
  fold_left (fun acc d => if is_primary d then Some d else acc) l init.

(** What is saved for the sites that were measured *)
Definition saves (int_of_str : pystr -> option Z)
    (sites : list (Orchestrator.site * Analyzer.call_outcome))
  : list Orchestrator.effect :=
  flat_map
    (fun sc =>
       match metrics_for int_of_str sc with
       | Some m =>
           [Orchestrator.Saved
              match Orchestrator.id (fst sc) with Some i => i | None => JNull end
              m]
       | None => []
       end) sites.


(** The effects of the visit of the site of number [index] *)
Definition visit_effects (int_of_str : pystr -> option Z) (total index : nat)
    (sc : Orchestrator.site * Analyzer.call_outcome)
  : list Orchestrator.effect :=
  Orchestrator.Analyzed
    (match Orchestrator.site_url (fst sc) with Some u => u | None => [] end)
  :: saves int_of_str [sc]
  ++ (if index <? total - 1
      then [Orchestrator.Slept Orchestrator.API_RATE_LIMIT_SECONDS]
      else []).

(** A word: at least one character, none of them white space *)
Definition is_word (w : pystr) : Prop :=
  w <> [] /\ Forall (fun c => isspace c = false) w.


End Notions.

Import Notions.

(* ================================================================== *)
(** * Sample data *)
(* ================================================================== *)

Module Samples.

Import Extractor.

Definition entry (score : json) (text details : dict) : dict :=
  (lit "score", score) :: text ++ [(lit "details", JObj details)].

Definition unused_css : dict :=
  entry (JFloat (round_b64 (5 # 10)))
        [(lit "title", JStr (lit "Reduce unused CSS"));
         (lit "description", JStr (lit "Remove dead rules"))]
        [(lit "type", JStr (lit "opportunity"));
         (lit "overallSavingsMs", JInt 300)].

Definition not_applicable : dict :=
  entry JNull []
        [(lit "type", JStr (lit "opportunity"));
         (lit "overallSavingsMs", JInt 9000)].

Definition payload : dict :=
  entry (JInt 0)
        [(lit "description", JStr (lit "Serve smaller files"))]
        [(lit "overallSavingsBytes", JInt 2048)].

Definition good_enough : dict :=
  entry (JFloat (round_b64 (9 # 10))) []
        [(lit "type", JStr (lit "opportunity"));
         (lit "overallSavingsMs", JInt 5000)].

Definition slow_script : dict :=
  entry (JFloat (round_b64 (89999 # 100000)))
        [(lit "description", JStr (lit "Split the bundle"))]
        [(lit "overallSavingsMs", JInt 1500)].

Definition equal_key : dict :=
  entry (JFloat (round_b64 (1 # 10)))
        [(lit "description", JStr (lit "Same key as the first"))]
        [(lit "overallSavingsMs", JInt 300)].

Definition nothing_to_gain : dict :=
  entry (JFloat (round_b64 (2 # 10)))
        [(lit "description", JStr (lit "Tagged but without savings"))]
        [(lit "type", JStr (lit "opportunity"))].

Definition sample_audits : dict :=
  [ (lit "unused-css-rules", JObj unused_css);
    (lit "not-applicable", JObj not_applicable);
    (lit "payload", JObj payload);
    (lit "good-enough", JObj good_enough);
    (lit "slow-script", JObj slow_script);
    (lit "equal-key", JObj equal_key);
    (lit "nothing-to-gain", JObj nothing_to_gain) ].

Definition sample_recommendations : list recommendation :=
  Eval vm_compute in
    match extract_smart_recommendations sample_audits with
    | Return recs => recs
    | Raise _ => []
    end.

(** A response of status 200 whose body decodes to [data] *)
Definition ok_response (data : json) : Analyzer.response :=
  {| Analyzer.status_code := 200;
     Analyzer.json_body := Some data;
     Analyzer.text := [] |}.

(** A body that carries the performance score [s] and nothing else *)
Definition score_body (s : json) : json :=
  JObj [(lit "lighthouseResult",
         JObj [(lit "categories",
                JObj [(lit "performance", JObj [(lit "score", s)])])])].

(** A body whose [lighthouseResult] has audits but no [categories] *)
Definition audits_only_body : json :=
  JObj [(lit "lighthouseResult",
         JObj [(lit "audits",
                JObj [(lit "largest-contentful-paint",
                       JObj [(lit "numericValue", JInt 2500)]);
                      (lit "unused-css-rules", JObj unused_css)])])].

Definition audits_only_response : Analyzer.response :=
  ok_response audits_only_body.

(** The record returned when nothing was measured *)
Definition empty_metrics : Analyzer.metrics :=
  {| Analyzer.score := 0;
     Analyzer.lcp := 0;
     Analyzer.cls := NInt 0;
     Analyzer.recommendations := [] |}.

(** An [int] builtin that accepts no string *)
Definition no_int (s : pystr) : option Z := None.

(** [str(x)] on the floats of the samples, which have one decimal digit *)
Definition repr_tenths (q : Q) : pystr :=
  let t := Qfloor (q * 10)%Q in
  str_of_Z (t / 10)%Z ++ lit "." ++ str_of_Z (t mod 10)%Z.

Definition sample_date : pystr := lit "04 November 2026".

Definition site (label : string) (score : Z) : Report.site_result :=
  {| Report.label := lit label;
     Report.url := lit "https://example.com";
     Report.score := score;
     Report.lcp := NFloat (5 # 2);
     Report.cls := NFloat (1 # 10);
     Report.recommendations := [] |}.
(** Seven recommendations, the first with a long action text *)
Definition sample_rec (n : Z) : Report.rec_item :=
  {| Report.title := Some (lit "Recommendation " ++ str_of_Z n);
     Report.action :=
       Some (lit "Load the style sheets and the scripts of the page with async or defer and inline the critical part");
     Report.display_value := Some (lit "1.2 s") |}.

Definition busy_site : Report.site_result :=
  {| Report.label := lit "Benim Sitem";
     Report.url := lit "https://example.com";
     Report.score := 55;
     Report.lcp := NFloat (5 # 2);
     Report.cls := NFloat (1 # 10);
     Report.recommendations := map sample_rec [1; 2; 3; 4; 5; 6; 7]%Z |}.

Definition sample_config : Orchestrator.config :=
  {| Orchestrator.SUPABASE_URL := lit "https://db.example.com";
     Orchestrator.SUPABASE_KEY := lit "db-key";
     Orchestrator.PAGESPEED_KEY := lit "api-key";
     Orchestrator.EMAIL_SENDER := lit "me@example.com";
     Orchestrator.EMAIL_PASSWORD := lit "secret" |}.

Definition sample_site (n : Z) (label url : string) : Orchestrator.site :=
  {| Orchestrator.id := Some (JInt n);
     Orchestrator.label := Some (lit label);
     Orchestrator.site_url := Some (lit url) |}.

(** Three sites: the primary one, a comparison site whose measurement
    times out, and a comparison site that is measured. *)
Definition sample_sites : list (Orchestrator.site * Analyzer.call_outcome) :=
  [ (sample_site 1 "Benim Sitem" "https://mine.example.com",
     Analyzer.CallReturns
       (ok_response (score_body (JFloat (round_b64 (73 # 100))))));
    (sample_site 2 "Rakip" "https://slow.example.com",
     Analyzer.CallRaises Analyzer.TimedOut);
    (sample_site 3 "Lider" "https://fast.example.com",
     Analyzer.CallReturns
       (ok_response (score_body (JFloat (round_b64 (95 # 100)))))) ].

Definition sample_run : Orchestrator.run :=
  Eval vm_compute in
    match Orchestrator.main no_int sample_config true sample_sites with
    | Orchestrator.Completed st _ => st
    | Orchestrator.Exited _ => Orchestrator.start
    end.

Definition sample_report_for
  : option (Orchestrator.site_data * list Orchestrator.site_data) :=
  Eval vm_compute in
    match Orchestrator.main no_int sample_config true sample_sites with
    | Orchestrator.Completed _ r => r
    | Orchestrator.Exited _ => None
    end.

(** A translated audit whose description is null *)
Definition null_description : dict :=
  entry (JFloat (round_b64 (5 # 10)))
        [(lit "description", JNull)]
        [(lit "type", JStr (lit "opportunity"))].

(** A response of status 429 whose error carries a message and an empty
    list of errors *)
Definition quota_response : Analyzer.response :=
  {| Analyzer.status_code := 429;
     Analyzer.json_body :=
       Some (JObj [(lit "error",
                    JObj [(lit "message", JStr (lit "Quota exceeded"));
                          (lit "errors", JArr [])])]);
     Analyzer.text := lit "quota" |}.

End Samples.

Import Extractor Samples.

Arguments lit : simpl never.

(* ================================================================== *)
(** * Facts about the extractor *)
(* ================================================================== *)

Section ExtractorFacts.

Lemma bind_returns {A B : Type} (m : result A) (f : A -> result B) (r : B) :
  bind m f = Return r -> exists x, m = Return x /\ f x = Return r.
Proof. destruct m as [x|e]; cbn [bind]; [now exists x | discriminate]. Qed.

Lemma pystr_eqb_eq (a b : pystr) : pystr_eqb a b = true <-> a = b.
Proof.
  revert b; induction a as [|x a IH]; intros [|y b]; simpl; split;
    try discriminate; try reflexivity; intros H.
  - apply andb_true_iff in H as [H1 H2].
    apply N.eqb_eq in H1. apply IH in H2. congruence.
  - injection H as -> ->. rewrite N.eqb_refl. simpl. now apply IH.
Qed.

Lemma pystr_eqb_refl (a : pystr) : pystr_eqb a a = true.
Proof. now apply pystr_eqb_eq. Qed.

Lemma Qlt_bool_iff (a b : Q) : Qlt_bool a b = true <-> (a < b)%Q.
Proof.
  unfold Qlt_bool. rewrite negb_true_iff. split; intros H.
  - apply Qnot_le_lt. intros Hle. apply Qle_bool_iff in Hle. congruence.
  - destruct (Qle_bool b a) eqn:E; [|reflexivity].
    apply Qle_bool_iff in E. exfalso. now apply (Qlt_not_le a b).
Qed.

Lemma Qlt_bool_false (a b : Q) : Qlt_bool a b = false <-> (b <= a)%Q.
Proof.
  unfold Qlt_bool. rewrite negb_false_iff. apply Qle_bool_iff.
Qed.

(** The accumulator of the loop only grows at its end. *)
Lemma collect_acc (items : dict) (acc : list opportunity) :
  collect items acc = (l <- collect items [] ;; Return (acc ++ l)).
Proof.
  revert acc; induction items as [|[k v] items IH]; intros acc; simpl.
  - now rewrite app_nil_r.
  - destruct (process_entry k v) as [[o|]|e]; simpl; [| apply IH | reflexivity].
    rewrite (IH (acc ++ [o])), (IH [o]).
    destruct (collect items []); simpl; [|reflexivity].
    now rewrite <- app_assoc.
Qed.

Lemma collect_cons (k : pystr) (v : json) (items : dict) :
  collect ((k, v) :: items) [] =
  (o <- process_entry k v ;;
   l <- collect items [] ;;
   Return (match o with Some x => x :: l | None => l end)).
Proof.
  simpl. destruct (process_entry k v) as [[o|]|e]; simpl; try reflexivity.
  - rewrite collect_acc. reflexivity.
  - destruct (collect items []); reflexivity.
Qed.

Lemma collect_app (l1 l2 : dict) :
  collect (l1 ++ l2) [] =
  (a <- collect l1 [] ;; b <- collect l2 [] ;; Return (a ++ b)).
Proof.
  induction l1 as [|[k v] l1 IH].
  - simpl. destruct (collect l2 []); reflexivity.
  - rewrite <- app_comm_cons, !collect_cons, IH.
    destruct (process_entry k v) as [[o|]|e]; simpl; try reflexivity;
      destruct (collect l1 []); simpl; try reflexivity;
      destruct (collect l2 []); reflexivity.
Qed.

Lemma appended_eq (k : pystr) (v : json) (r : option opportunity) :
  process_entry k v = Return r ->
  appended (k, v) = match r with Some x => [x] | None => [] end.
Proof. unfold appended. cbn [fst snd]. now intros ->. Qed.

(** When the loop completes, every entry was processed without a fault
    and the list holds what the entries added, in the order of the
    mapping. *)
Lemma collect_returns (items : dict) (opps : list opportunity) :
  collect items [] = Return opps ->
  Forall (fun kv => exists r, process_entry (fst kv) (snd kv) = Return r) items
  /\ opps = flat_map appended items.
Proof.
  revert opps; induction items as [|[k v] items IH]; intros opps.
  - simpl. intros [= <-]. split; [constructor | reflexivity].
  - rewrite collect_cons.
    destruct (process_entry k v) as [r|e] eqn:E; cbn [bind]; [|discriminate].
    destruct (collect items []) as [l|e] eqn:C; cbn [bind]; [|discriminate].
    intros [= <-]. destruct (IH l eq_refl) as [HF ->]. split.
    + constructor; [now exists r | exact HF].
    + cbn [flat_map]. rewrite appended_eq with (r := r) by exact E. now destruct r.
Qed.

(** The loop completes when no entry faults. *)
Lemma collect_total (items : dict) :
  Forall (fun kv => exists r, process_entry (fst kv) (snd kv) = Return r) items ->
  collect items [] = Return (flat_map appended items).
Proof.
  induction 1 as [|[k v] items [r Hr] _ IH].
  - reflexivity.
  - rewrite collect_cons. cbn [fst snd] in Hr. rewrite Hr, IH. cbn [bind flat_map].
    rewrite appended_eq with (r := r) by exact Hr. now destruct r.
Qed.

Lemma savings_suffix_spec (vm vb : json) (ms bytes : Q) :
  num_of vm = Some ms -> num_of vb = Some bytes ->
  savings_suffix vm vb = Return (expected_suffix ms bytes).
Proof.
  intros Hm Hb. unfold savings_suffix, gt_zero, int_of, truediv, expected_suffix.
  rewrite Hm, Hb. cbn [bind].
  destruct (Qlt_bool 0 ms); cbn [bind]; [reflexivity|].
  destruct (Qlt_bool 0 bytes); reflexivity.
Qed.

Lemma to_float_num (v : json) (a : Q) :
  to_float v = Some a -> exists q, num_of v = Some q.
Proof. destruct v; simpl; try discriminate; eauto. Qed.

Lemma not_a_problem_at (thr : Q) (sc : json) (skip : bool) :
  match sc with
  | JNull => Return true
  | _ => ge_float sc thr
  end = Return skip ->
  skip = negb match sc with
              | JNull => false
              | _ => match num_of sc with
                     | Some s => Qlt_bool s thr
                     | None => false
                     end
              end.
Proof.
  unfold ge_float, Qlt_bool.
  destruct sc; cbn [num_of]; intros H;
    first [discriminate H | injection H as <-; now rewrite ?negb_involutive].
Qed.

Lemma not_a_problem_below (sc : json) (skip : bool) :
  not_a_problem sc = Return skip -> skip = negb (below_threshold sc).
Proof. exact (not_a_problem_at score_threshold sc skip). Qed.

Lemma base_action_intro (k : pystr) (ad : dict) (base : pystr) :
  match translations_get AUDIT_TRANSLATIONS k with
  | Some t => base = tr_action t
  | None =>
      exists s, get ad (lit "description") (JStr []) = JStr s
                /\ base = slice_to 150 s
  end ->
  base_action k ad base.
Proof. unfold base_action. exact (fun H => H). Qed.

Lemma included_intro (k : pystr) (ad dd : dict) (x t : Q) (descr : json)
    (sfx act : pystr) (title0 : json) :
  truediv (get dd (lit "overallSavingsBytes") (JInt 0)) 1000 = Return x ->
  add_float (get dd (lit "overallSavingsMs") (JInt 0)) x = Return t ->
  slice_json 150 (get ad (lit "description") (JStr [])) = Return descr ->
  savings_suffix (get dd (lit "overallSavingsMs") (JInt 0))
                 (get dd (lit "overallSavingsBytes") (JInt 0)) = Return sfx ->
  concat_str match translations_get AUDIT_TRANSLATIONS k with
             | Some t => JStr (tr_action t)
             | None => descr
             end sfx = Return act ->
  included_as k ad dd
    {| opp_audit_id := k;
       opp_title := title0;
       opp_action := act;
       opp_display_value := get ad (lit "displayValue") (JStr []);
       opp_savings := t;
       opp_score := get ad (lit "score") JNull;
       opp_savings_ms := get dd (lit "overallSavingsMs") (JInt 0);
       opp_savings_bytes := get dd (lit "overallSavingsBytes") (JInt 0) |}.
Proof.
  intros Hx Ht Hsl Hsfx Hact.
  unfold included_as; cbn [opp_audit_id opp_score opp_display_value opp_savings_ms
    opp_savings_bytes opp_savings opp_action].
  repeat (split; [reflexivity|]).
  unfold truediv in Hx. destruct (num_of (get dd (lit "overallSavingsBytes") (JInt 0)))
    as [bytes|] eqn:Hb; [|discriminate]. injection Hx as <-.
  unfold add_float in Ht. destruct (to_float (get dd (lit "overallSavingsMs") (JInt 0)))
    as [a|] eqn:Ha; [|discriminate]. injection Ht as <-.
  destruct (to_float_num _ _ Ha) as [ms Hm].
  rewrite (savings_suffix_spec _ _ _ _ Hm Hb) in Hsfx. injection Hsfx as <-.
  destruct (translations_get AUDIT_TRANSLATIONS k) as [tr|] eqn:Etr.
  - cbn [concat_str] in Hact. injection Hact as <-.
    exists ms, bytes, a, (tr_action tr).
    repeat (split; [first [assumption | reflexivity]|]).
    split; [|reflexivity].
    apply base_action_intro. now rewrite Etr.
  - destruct descr; cbn [concat_str] in Hact; try discriminate. injection Hact as <-.
    destruct (get ad (lit "description") (JStr [])) eqn:Hde; cbn [slice_json] in Hsl;
      try discriminate. injection Hsl as <-.
    exists ms, bytes, a, (slice_to 150 s0).
    repeat (split; [first [assumption | reflexivity]|]).
    split; [|reflexivity].
    apply base_action_intro. rewrite Etr. now exists s0.
Qed.

Lemma as_dict_returns (v : json) (d : dict) : as_dict v = Return d -> v = JObj d.
Proof. destruct v; try discriminate. now intros [= ->]. Qed.

Lemma process_entry_inv (k : pystr) (v : json) (r : option opportunity) :
  process_entry k v = Return r ->
  exists ad dd,
    v = JObj ad
    /\ get ad (lit "details") (JObj []) = JObj dd
    /\ exists skip, not_a_problem (get ad (lit "score") JNull) = Return skip
    /\ if below_threshold (get ad (lit "score") JNull) && wanted dd
       then exists o, r = Some o /\ included_as k ad dd o
       else r = None.
Proof.
  unfold process_entry. intros H.
  apply bind_returns in H as (ad & Hv & H).
  apply bind_returns in H as (dd & Hd & H).
  apply bind_returns in H as (skip & Hs & H).
  apply as_dict_returns in Hv, Hd.
  exists ad, dd. split; [exact Hv|]. split; [exact Hd|].
  exists skip. split; [exact Hs|].
  pose proof (not_a_problem_below _ _ Hs) as Hb.
  destruct skip.
  - injection H as <-. apply (f_equal negb) in Hb.
    rewrite negb_involutive in Hb. cbn [negb] in Hb. now rewrite <- Hb.
  - apply (f_equal negb) in Hb. rewrite negb_involutive in Hb.
    cbn [negb] in Hb. rewrite <- Hb. cbn [andb].
    fold (wanted dd) in H. destruct (wanted dd); [|now injection H as <-].
    apply bind_returns in H as (x & Hx & H).
    apply bind_returns in H as (t & Ht & H).
    apply bind_returns in H as (descr & Hsl & H).
    apply bind_returns in H as (sfx & Hsfx & H).
    apply bind_returns in H as (act & Hact & H).
    injection H as <-. eexists. split; [reflexivity|].
    exact (included_intro _ _ _ _ _ _ _ _ _ Hx Ht Hsl Hsfx Hact).
Qed.

Lemma process_entry_title (k : pystr) (ad : dict) (o : opportunity) :
  process_entry k (JObj ad) = Return (Some o) ->
  opp_title o
  = match translations_get AUDIT_TRANSLATIONS k with
    | Some t => JStr (tr_title t)
    | None => get ad (lit "title") (JStr (lit "Bilinmeyen Tavsiye"))
    end.
Proof.
  unfold process_entry. intros H.
  apply bind_returns in H as (ad' & Had & H).
  apply bind_returns in H as (dd & _ & H).
  apply bind_returns in H as (skip & _ & H).
  destruct skip; [discriminate H|].
  destruct (_ || _); [|discriminate H].
  apply bind_returns in H as (b & _ & H).
  apply bind_returns in H as (t & _ & H).
  apply bind_returns in H as (d & _ & H).
  apply bind_returns in H as (sfx & _ & H).
  apply bind_returns in H as (act & _ & H).
  injection Had as <-. now injection H as <-.
Qed.

Lemma base_action_cases (k : pystr) (ad : dict) (base : pystr) :
  base_action k ad base ->
  match translations_get AUDIT_TRANSLATIONS k with
  | Some t => base = tr_action t
  | None =>
      exists s, get ad (lit "description") (JStr []) = JStr s
                /\ base = slice_to 150 s
  end.
Proof. unfold base_action. exact (fun H => H). Qed.

(** ** The sort *)

Lemma insert_desc_perm (x : opportunity) (l : list opportunity) :
  Permutation (insert_desc x l) (x :: l).
Proof.
  induction l as [|y l IH]; simpl; [reflexivity|].
  destruct (Qlt_bool (opp_savings x) (opp_savings y)); [|reflexivity].
  rewrite IH. apply perm_swap.
Qed.

Lemma sort_desc_perm (l : list opportunity) : Permutation (sort_desc l) l.
Proof.
  induction l as [|x l IH]; simpl; [reflexivity|].
  rewrite insert_desc_perm. now apply perm_skip.
Qed.

Lemma insert_desc_sorted (x : opportunity) (l : list opportunity) :
  StronglySorted opp_ge l -> StronglySorted opp_ge (insert_desc x l).
Proof.
  induction 1 as [|y l Hs IH Hy]; simpl.
  - constructor; constructor.
  - destruct (Qlt_bool (opp_savings x) (opp_savings y)) eqn:E.
    + constructor; [exact IH|].
      apply (Permutation_Forall (Permutation_sym (insert_desc_perm x l))).
      constructor; [|exact Hy].
      apply Qlt_bool_iff in E. unfold opp_ge. now apply Qlt_le_weak.
    + apply Qlt_bool_false in E.
      constructor; [now constructor|].
      constructor; [exact E|].
      eapply Forall_impl; [|exact Hy].
      intros z Hz. unfold opp_ge in *. now apply Qle_trans with (opp_savings y).
Qed.

Lemma sort_desc_sorted (l : list opportunity) : StronglySorted opp_ge (sort_desc l).
Proof.
  induction l as [|x l IH]; simpl; [constructor|].
  now apply insert_desc_sorted.
Qed.

(** Insertion passes only over elements of a strictly greater key, so
    the elements of any one key keep their order. *)
Lemma insert_desc_stable (q : Q) (x : opportunity) (l : list opportunity) :
  filter (opp_has_key q) (insert_desc x l) = filter (opp_has_key q) (x :: l).
Proof.
  induction l as [|y l IH]; [reflexivity|].
  cbn [insert_desc].
  destruct (Qlt_bool (opp_savings x) (opp_savings y)) eqn:E; [|reflexivity].
  cbn [filter] in *. rewrite IH.
  destruct (opp_has_key q x) eqn:Hx; [|reflexivity].
  destruct (opp_has_key q y) eqn:Hy; [|reflexivity].
  exfalso. unfold opp_has_key in *.
  apply Qeq_bool_iff in Hx, Hy. apply Qlt_bool_iff in E.
  rewrite Hx, Hy in E. now apply (Qlt_irrefl q).
Qed.

Lemma sort_desc_stable (q : Q) (l : list opportunity) :
  filter (opp_has_key q) (sort_desc l) = filter (opp_has_key q) l.
Proof.
  induction l as [|x l IH]; [reflexivity|].
  cbn [sort_desc fold_right]. fold (sort_desc l).
  rewrite insert_desc_stable. cbn [filter]. now rewrite IH.
Qed.

(** ** What the loop appends *)

Lemma appended_in (k : pystr) (v : json) (o : opportunity) :
  In o (appended (k, v)) -> process_entry k v = Return (Some o).
Proof.
  unfold appended. cbn [fst snd].
  destruct (process_entry k v) as [[o'|]|e]; simpl; try tauto.
  intros [->|[]]. reflexivity.
Qed.

Lemma in_collected (items : dict) (o : opportunity) :
  In o (flat_map appended items) ->
  exists k v, In (k, v) items /\ process_entry k v = Return (Some o).
Proof.
  rewrite in_flat_map. intros [[k v] [Hin Ho]].
  exists k, v. split; [exact Hin | now apply appended_in].
Qed.

Lemma included_key (k : pystr) (v : json) (o : opportunity) :
  process_entry k v = Return (Some o) ->
  opp_audit_id o = k /\ opp_savings o = rec_key (to_recommendation o).
Proof.
  intros H. destruct (process_entry_inv _ _ _ H) as (ad & dd & -> & Hd & skip & Hs & Hr).
  destruct (below_threshold _ && wanted dd); [|discriminate].
  destruct Hr as (o' & [= <-] & Hid & _ & _ & _ & _ & ms & bytes & a & base
                  & Hm & Hb & Ha & Hsav & _).
  split; [exact Hid|].
  unfold rec_key. cbn [to_recommendation rec_savings_ms rec_savings_bytes].
  now rewrite Ha, Hb.
Qed.

Lemma matching_spec (k : pystr) (v : json) (r : option opportunity) :
  process_entry k v = Return r ->
  matching (k, v) = match r with Some _ => true | None => false end.
Proof.
  intros H. destruct (process_entry_inv _ _ _ H) as (ad & dd & -> & Hd & skip & Hs & Hr).
  unfold matching. cbn [snd]. rewrite Hd.
  destruct (below_threshold _ && wanted dd).
  - now destruct Hr as (o & -> & _).
  - now subst r.
Qed.

(** The list built by the loop names the matching entries, in the order
    of the mapping. *)
Lemma collected_ids (items : dict) :
  Forall (fun kv => exists r, process_entry (fst kv) (snd kv) = Return r) items ->
  map opp_audit_id (flat_map appended items) = map fst (filter matching items).
Proof.
  induction 1 as [|[k v] items [r Hr] _ IH]; [reflexivity|].
  cbn [flat_map filter fst snd] in *. rewrite map_app, IH.
  rewrite (matching_spec _ _ _ Hr), appended_eq with (r := r) by exact Hr.
  destruct r as [o|]; [|reflexivity].
  cbn [map app fst]. f_equal. now apply (included_key _ _ _ Hr).
Qed.

Lemma extract_returns (audits : dict) (recs : list recommendation) :
  extract_smart_recommendations audits = Return recs ->
  Forall (fun kv => exists r, process_entry (fst kv) (snd kv) = Return r) audits
  /\ collect audits [] = Return (flat_map appended audits)
  /\ recs = map to_recommendation (sort_desc (flat_map appended audits)).
Proof.
  unfold extract_smart_recommendations.
  destruct (collect audits []) as [opps|e] eqn:C; cbn [bind]; [|discriminate].
  intros [= <-]. destruct (collect_returns _ _ C) as [HF ->]. now repeat split.
Qed.

Lemma sorted_map_keys (l : list opportunity) :
  Forall (fun o => opp_savings o = rec_key (to_recommendation o)) l ->
  StronglySorted opp_ge l -> StronglySorted key_ge (map to_recommendation l).
Proof.
  intros HF HS. induction HS as [|x l HS IH Hx]; simpl; [constructor|].
  inversion HF as [|? ? Hkx HFl]; subst.
  constructor; [now apply IH|].
  apply Forall_map. rewrite Forall_forall in *. intros y Hy.
  unfold key_ge, opp_ge in *. rewrite <- Hkx, <- (HFl y Hy). now apply Hx.
Qed.

Lemma filter_map_keys (q : Q) (l : list opportunity) :
  Forall (fun o => opp_savings o = rec_key (to_recommendation o)) l ->
  filter (has_key q) (map to_recommendation l)
  = map to_recommendation (filter (opp_has_key q) l).
Proof.
  induction 1 as [|x l Hx _ IH]; [reflexivity|].
  cbn [map filter]. unfold has_key at 1, opp_has_key at 1. rewrite <- Hx.
  destruct (Qeq_bool (opp_savings x) q); cbn [map]; now rewrite IH.
Qed.

Lemma collected_keys (items : dict) :
  Forall (fun o => opp_savings o = rec_key (to_recommendation o))
         (flat_map appended items).
Proof.
  apply Forall_forall. intros o Ho.
  destruct (in_collected _ _ Ho) as (k & v & _ & Hp).
  now apply (included_key _ _ _ Hp).
Qed.

(** ** An entry and its recommendation *)

Lemma base_action_text (k : pystr) (ad : dict) (base : pystr) :
  base_action k ad base -> base = base_text k ad.
Proof.
  unfold base_action, base_text.
  destruct (translations_get AUDIT_TRANSLATIONS k) as [t|]; [now intros ->|].
  now intros (s & -> & ->).
Qed.

Lemma included_recommendation (k : pystr) (ad dd : dict) (o : opportunity) :
  process_entry k (JObj ad) = Return (Some o) ->
  included_as k ad dd o ->
  to_recommendation o = entry_recommendation k ad dd.
Proof.
  intros H (_ & _ & Hdv & Hms & Hbs & ms & bytes & a & base
            & Hm & Hb & _ & _ & Hbase & Hact).
  pose proof (process_entry_title _ _ _ H) as Ht.
  apply base_action_text in Hbase.
  unfold to_recommendation, entry_recommendation, number.
  rewrite <- Hms, <- Hbs, Hm, Hb, Ht, Hdv, Hact, Hbase. reflexivity.
Qed.

Lemma appended_expected (k : pystr) (v : json) (r : option opportunity) :
  process_entry k v = Return r ->
  map to_recommendation (appended (k, v)) = expected (k, v).
Proof.
  intros H. rewrite (appended_eq _ _ _ H).
  destruct (process_entry_inv _ _ _ H) as (ad & dd & -> & Hd & _ & _ & Hr).
  unfold expected. cbn [fst snd]. rewrite Hd.
  destruct (below_threshold _ && wanted dd).
  - destruct Hr as (o & -> & Hi). cbn [map]. f_equal.
    now apply included_recommendation.
  - now subst r.
Qed.

(** The list built by the loop holds what the specification has the
    entries contribute, in the order of the mapping. *)
Lemma collected_expected (items : dict) :
  Forall (fun kv => exists r, process_entry (fst kv) (snd kv) = Return r) items ->
  map to_recommendation (flat_map appended items) = flat_map expected items.
Proof.
  induction 1 as [|[k v] items [r Hr] _ IH]; [reflexivity|].
  cbn [flat_map fst snd] in *. rewrite map_app, IH.
  now rewrite (appended_expected _ _ _ Hr).
Qed.

Lemma expected_matching (items : dict) :
  length (flat_map expected items) = length (filter matching items).
Proof.
  induction items as [|[k v] items IH]; [reflexivity|].
  cbn [flat_map filter]. rewrite length_app, IH.
  unfold expected, matching. cbn [fst snd].
  destruct v as [| | | | | |ad]; try reflexivity.
  destruct (get ad (lit "details") (JObj [])) as [| | | | | |dd]; try reflexivity.
  now destruct (below_threshold _ && wanted dd).
Qed.

End ExtractorFacts.

(** ** Removing an entry that adds nothing *)

Lemma extract_without (l1 l2 : dict) (k : pystr) (v : json) :
  process_entry k v = Return None ->
  extract_smart_recommendations (l1 ++ (k, v) :: l2)
  = extract_smart_recommendations (l1 ++ l2).
Proof.
  intros H. unfold extract_smart_recommendations.
  rewrite !collect_app, collect_cons, H. cbn [bind].
  destruct (collect l1 []); cbn [bind]; [|reflexivity].
  destruct (collect l2 []); reflexivity.
Qed.

Lemma returns_at (l1 l2 : dict) (k : pystr) (v : json)
    (recs : list recommendation) :
  extract_smart_recommendations (l1 ++ (k, v) :: l2) = Return recs ->
  exists r, process_entry k v = Return r.
Proof.
  intros H. destruct (extract_returns _ _ H) as (HF & _).
  rewrite Forall_forall in HF.
  apply (HF (k, v)). apply in_elt.
Qed.

Lemma skipped_entry (k : pystr) (ad : dict) (r : option opportunity) :
  process_entry k (JObj ad) = Return r ->
  below_threshold (get ad (lit "score") JNull) = false ->
  r = None.
Proof.
  intros H Hb.
  destruct (process_entry_inv _ _ _ H) as (ad' & dd & [= <-] & _ & _ & _ & Hr).
  now rewrite Hb in Hr.
Qed.

(** C3: an entry whose score is [None] or absent, or is 0.9 or more,
    leaves no trace in the returned list, whatever its other fields are:
    the list is the one returned for the mapping without that entry.  A
    score strictly below 0.9, such as 0.89999, makes the score test
    false, so that the entry is not skipped by it. *)
Theorem score_filter (l1 l2 : dict) (k : pystr) (ad : dict)
    (recs : list recommendation) :
  extract_smart_recommendations (l1 ++ (k, JObj ad) :: l2) = Return recs ->
  let score := get ad (lit "score") JNull in
  (score = JNull ->
     extract_smart_recommendations (l1 ++ l2) = Return recs)
  /\ (forall s, num_of score = Some s -> (score_threshold <= s)%Q ->
        extract_smart_recommendations (l1 ++ l2) = Return recs)
  /\ (forall s, score <> JNull -> num_of score = Some s ->
        (s < score_threshold)%Q ->
        not_a_problem score = Return false)
  /\ not_a_problem (JFloat (round_b64 (9 # 10))) = Return true
  /\ not_a_problem (JFloat (round_b64 (89999 # 100000))) = Return false.
Proof.
  intros H score. destruct (returns_at _ _ _ _ _ H) as [r Hr].
  repeat apply conj.
  - intros Hn. rewrite <- H. symmetry. apply extract_without.
    rewrite Hr. f_equal. apply (skipped_entry _ _ _ Hr).
    fold score. now rewrite Hn.
  - intros s Hs Hle. rewrite <- H. symmetry. apply extract_without.
    rewrite Hr. f_equal. apply (skipped_entry _ _ _ Hr).
    fold score. unfold below_threshold. rewrite Hs.
    destruct score; try reflexivity; now apply Qlt_bool_false.
  - intros s Hn Hs Hlt. unfold not_a_problem, ge_float. rewrite Hs.
    destruct score; try congruence; f_equal;
      apply Qlt_bool_iff in Hlt; unfold Qlt_bool in Hlt;
      now apply negb_true_iff in Hlt.
  - reflexivity.
  - reflexivity.
Qed.

Lemma score_filter_witness :
  extract_smart_recommendations
    (firstn 1 sample_audits ++ skipn 2 sample_audits)
  = Return sample_recommendations
  /\ extract_smart_recommendations
       (firstn 3 sample_audits ++ skipn 4 sample_audits)
     = Return sample_recommendations.
Proof.
  split.
  - refine (proj1 (score_filter (firstn 1 sample_audits) (skipn 2 sample_audits)
             (lit "not-applicable") not_applicable sample_recommendations _) eq_refl).
    vm_compute. reflexivity.
  - refine (proj1 (proj2 (score_filter (firstn 3 sample_audits)
             (skipn 4 sample_audits) (lit "good-enough") good_enough
             sample_recommendations _)) (round_b64 (9 # 10)) eq_refl _).
    + vm_compute. reflexivity.
    + vm_compute. discriminate.
Defined.

(** C4: the returned list holds the recommendations of the matching
    entries and nothing else, none dropped and none added; it is in
    descending order of the key
    [overallSavingsMs + overallSavingsBytes / 1000]; and the
    recommendations of one key stand in the order their entries have in
    the audit mapping. *)
Theorem ranking_sorted_stable_complete (audits : dict)
    (recs : list recommendation) :
  extract_smart_recommendations audits = Return recs ->
  StronglySorted key_ge recs
  /\ (forall q, filter (has_key q) recs
                = filter (has_key q) (flat_map expected audits))
  /\ Permutation recs (flat_map expected audits)
  /\ length recs = length (filter matching audits).
Proof.
  intros H. destruct (extract_returns _ _ H) as (HF & _ & ->).
  pose proof (collected_keys audits) as HK.
  assert (HP : Permutation (sort_desc (flat_map appended audits))
                           (flat_map appended audits))
    by apply sort_desc_perm.
  rewrite <- (collected_expected audits HF).
  repeat apply conj.
  - apply sorted_map_keys; [|apply sort_desc_sorted].
    now apply (Permutation_Forall (Permutation_sym HP)).
  - intros q. rewrite !filter_map_keys; [|exact HK|].
    + now rewrite sort_desc_stable.
    + now apply (Permutation_Forall (Permutation_sym HP)).
  - now apply Permutation_map.
  - rewrite length_map, (Permutation_length HP), <- (length_map to_recommendation).
    rewrite (collected_expected audits HF). apply expected_matching.
Qed.

Lemma ranking_sorted_stable_complete_witness :
  StronglySorted key_ge sample_recommendations
  /\ (forall q, filter (has_key q) sample_recommendations
                = filter (has_key q) (flat_map expected sample_audits))
  /\ Permutation sample_recommendations (flat_map expected sample_audits)
  /\ length sample_recommendations = length (filter matching sample_audits).
Proof.
  apply (ranking_sorted_stable_complete sample_audits sample_recommendations).
  vm_compute. reflexivity.
Defined.

(** The order of the sample: the largest saving first, the two entries
    of key 300 in the order of the mapping, the entry without savings
    last. *)
Example sample_order :
  map rec_savings_ms sample_recommendations
  = [JInt 1500; JInt 300; JInt 300; JInt 0; JInt 0]
  /\ map rec_action sample_recommendations
     = [lit "Split the bundle (~1500ms tasarruf)";
        lit "PurgeCSS veya benzeri araçlarla kullanılmayan stilleri kaldırın. (~300ms tasarruf)";
        lit "Same key as the first (~300ms tasarruf)";
        lit "Serve smaller files (~2KB tasarruf)";
        lit "Tagged but without savings"].
Proof. split; vm_compute; reflexivity. Qed.

(** ** Counting the elements that stem from one entry *)

Lemma round_b64_zero (q : Q) : (q == 0)%Q -> round_b64 q = 0%Q.
Proof.
  intros H. unfold round_b64.
  now rewrite (proj2 (Qeq_bool_iff q 0) H).
Qed.

Lemma to_float_zero (v : json) (a ms : Q) :
  to_float v = Some a -> num_of v = Some ms -> (ms == 0)%Q -> (a == 0)%Q.
Proof.
  destruct v; simpl; try discriminate.
  - intros [= <-] [= <-] H. now rewrite round_b64_zero.
  - intros [= <-] [= <-] H. now rewrite round_b64_zero.
  - now intros [= <-] [= <-].
Qed.

Lemma expected_suffix_none (ms bytes : Q) :
  (ms <= 0)%Q -> (bytes <= 0)%Q -> expected_suffix ms bytes = [].
Proof.
  intros Hm Hb. unfold expected_suffix.
  now rewrite (proj2 (Qlt_bool_false 0 ms) Hm), (proj2 (Qlt_bool_false 0 bytes) Hb).
Qed.

Lemma returns_without (l1 l2 : dict) (kv : pystr * json) :
  Forall (fun kv => exists r, process_entry (fst kv) (snd kv) = Return r)
         (l1 ++ kv :: l2) ->
  Forall (fun kv => exists r, process_entry (fst kv) (snd kv) = Return r)
         (l1 ++ l2).
Proof.
  rewrite !Forall_app. intros [H1 H2]. split; [exact H1|].
  now inversion H2.
Qed.

Lemma extract_total_on (audits : dict) :
  Forall (fun kv => exists r, process_entry (fst kv) (snd kv) = Return r) audits ->
  extract_smart_recommendations audits
  = Return (map to_recommendation (sort_desc (flat_map appended audits))).
Proof.
  intros H. unfold extract_smart_recommendations.
  now rewrite (collect_total _ H).
Qed.

Lemma zero_key (k : pystr) (ad dd : dict) (ms bytes : Q) :
  num_of (get dd (lit "overallSavingsMs") (JInt 0)) = Some ms ->
  num_of (get dd (lit "overallSavingsBytes") (JInt 0)) = Some bytes ->
  (ms == 0)%Q -> (bytes == 0)%Q ->
  rec_key (entry_recommendation k ad dd) = 0%Q
  /\ rec_action (entry_recommendation k ad dd) = base_text k ad.
Proof.
  intros Hm Hb Hm0 Hb0. unfold entry_recommendation, rec_key, number.
  cbn [rec_savings_ms rec_savings_bytes rec_action]. rewrite Hm, Hb. split.
  - destruct (to_float (get dd (lit "overallSavingsMs") (JInt 0))) as [a|] eqn:Ha;
      [|reflexivity].
    apply round_b64_zero.
    rewrite (to_float_zero _ _ _ Ha Hm Hm0).
    rewrite (round_b64_zero (bytes / inject_Z 1000)); [reflexivity|].
    rewrite Hb0. reflexivity.
  - rewrite expected_suffix_none, app_nil_r; try reflexivity.
    + rewrite Hm0. apply Qle_refl.
    + rewrite Hb0. apply Qle_refl.
Qed.

(** C5: an entry whose score passes the test is included exactly when
    its [details.type] is "opportunity" or its [details] hold one of the
    keys [overallSavingsMs], [overallSavingsBytes]: the returned list is
    then the list returned without the entry with the recommendation of
    the entry added once, also when both conditions hold; otherwise it
    is the list returned without the entry.  An entry of type
    "opportunity" whose two savings are zero is included all the same,
    its recommendation having the key 0 and an action text without
    annotation. *)
Theorem inclusion_rule (l1 l2 : dict) (k : pystr) (ad dd : dict)
    (recs : list recommendation) :
  extract_smart_recommendations (l1 ++ (k, JObj ad) :: l2) = Return recs ->
  get ad (lit "details") (JObj []) = JObj dd ->
  below_threshold (get ad (lit "score") JNull) = true ->
  exists rest,
    extract_smart_recommendations (l1 ++ l2) = Return rest
    /\ (if eq_str (get dd (lit "type") (JStr [])) (lit "opportunity")
           || (dict_mem dd (lit "overallSavingsMs")
               || dict_mem dd (lit "overallSavingsBytes"))
        then Permutation recs (entry_recommendation k ad dd :: rest)
        else recs = rest)
    /\ (eq_str (get dd (lit "type") (JStr [])) (lit "opportunity") = true ->
        forall ms bytes,
          num_of (get dd (lit "overallSavingsMs") (JInt 0)) = Some ms ->
          num_of (get dd (lit "overallSavingsBytes") (JInt 0)) = Some bytes ->
          (ms == 0)%Q -> (bytes == 0)%Q ->
          Permutation recs (entry_recommendation k ad dd :: rest)
          /\ rec_key (entry_recommendation k ad dd) = 0%Q
          /\ rec_action (entry_recommendation k ad dd) = base_text k ad).
Proof.
  intros H Hd Hb.
  destruct (extract_returns _ _ H) as (HF & _ & ->).
  pose proof (returns_without _ _ _ HF) as HF'.
  exists (map to_recommendation (sort_desc (flat_map appended (l1 ++ l2)))).
  split; [now apply extract_total_on|].
  assert (Hp : exists r, process_entry k (JObj ad) = Return r).
  { rewrite Forall_forall in HF. apply (HF (k, JObj ad)), in_elt. }
  destruct Hp as [r Hr].
  pose proof (appended_expected _ _ _ Hr) as He.
  unfold expected in He. cbn [fst snd] in He. rewrite Hd, Hb in He.
  cbn [andb] in He. unfold wanted in He.
  assert (Hin : (eq_str (get dd (lit "type") (JStr [])) (lit "opportunity")
                 || (dict_mem dd (lit "overallSavingsMs")
                     || dict_mem dd (lit "overallSavingsBytes"))) = true ->
                Permutation
                  (map to_recommendation
                     (sort_desc (flat_map appended (l1 ++ (k, JObj ad) :: l2))))
                  (entry_recommendation k ad dd
                   :: map to_recommendation
                        (sort_desc (flat_map appended (l1 ++ l2))))).
  { intros Hw. rewrite Hw in He.
    rewrite (Permutation_map to_recommendation (sort_desc_perm _)).
    rewrite (Permutation_map to_recommendation
               (sort_desc_perm (flat_map appended (l1 ++ l2)))).
    rewrite !flat_map_app. cbn [flat_map].
    rewrite !map_app, He. cbn [app].
    symmetry. apply Permutation_middle. }
  split.
  - destruct (eq_str _ _ || _) eqn:Hw; [now apply Hin|].
    rewrite !flat_map_app. cbn [flat_map].
    destruct (appended (k, JObj ad)); [reflexivity | discriminate He].
  - intros Hty ms bytes Hm Hby Hm0 Hb0.
    split; [apply Hin; now rewrite Hty|].
    now apply (zero_key k ad dd ms bytes).
Qed.

Lemma inclusion_rule_witness :
  exists rest,
    extract_smart_recommendations (removelast sample_audits) = Return rest
    /\ Permutation sample_recommendations
         (entry_recommendation (lit "nothing-to-gain") nothing_to_gain
            [(lit "type", JStr (lit "opportunity"))] :: rest)
    /\ rec_key (entry_recommendation (lit "nothing-to-gain") nothing_to_gain
                  [(lit "type", JStr (lit "opportunity"))]) = 0%Q
    /\ rec_action (entry_recommendation (lit "nothing-to-gain") nothing_to_gain
                     [(lit "type", JStr (lit "opportunity"))])
       = lit "Tagged but without savings".
Proof.
  destruct (inclusion_rule (removelast sample_audits) []
              (lit "nothing-to-gain") nothing_to_gain
              [(lit "type", JStr (lit "opportunity"))] sample_recommendations)
    as (rest & Hr & _ & Hz).
  - vm_compute. reflexivity.
  - vm_compute. reflexivity.
  - vm_compute. reflexivity.
  - exists rest. split; [rewrite <- Hr; f_equal; vm_compute; reflexivity|].
    destruct (Hz eq_refl 0%Q 0%Q eq_refl eq_refl (Qeq_refl 0) (Qeq_refl 0))
      as (H1 & H2 & H3).
    split; [exact H1|]. split; [exact H2|]. rewrite H3. vm_compute. reflexivity.
Defined.

(** An entry with both the tag and savings is included once. *)
Example tagged_with_savings_once :
  length (filter (from_audit (lit "unused-css-rules"))
                 (flat_map appended sample_audits)) = 1.
Proof. vm_compute. reflexivity. Qed.

(** C6: the action text of an included entry is its base text followed
    by: the integer value of [overallSavingsMs] and "ms" when that saving
    is positive; otherwise [overallSavingsBytes / 1024] truncated to an
    integer and "KB" when that saving is positive; otherwise nothing. *)
Theorem savings_annotation (k : pystr) (v : json) (o : opportunity) :
  process_entry k v = Return (Some o) ->
  exists (ad dd : dict) (ms bytes : Q) (base : pystr),
    v = JObj ad
    /\ get ad (lit "details") (JObj []) = JObj dd
    /\ num_of (get dd (lit "overallSavingsMs") (JInt 0)) = Some ms
    /\ num_of (get dd (lit "overallSavingsBytes") (JInt 0)) = Some bytes
    /\ base_action k ad base
    /\ ((0 < ms)%Q ->
        opp_action o
        = base ++ lit " (~" ++ str_of_Z (trunc ms) ++ lit "ms tasarruf)")
    /\ ((ms <= 0)%Q -> (0 < bytes)%Q ->
        opp_action o
        = base ++ lit " (~"
            ++ str_of_Z (trunc (round_b64 (bytes / inject_Z 1024)))
            ++ lit "KB tasarruf)")
    /\ ((ms <= 0)%Q -> (bytes <= 0)%Q -> opp_action o = base).
Proof.
  intros H.
  destruct (process_entry_inv _ _ _ H) as (ad & dd & -> & Hd & _ & _ & Hincl).
  destruct (below_threshold _ && wanted dd); [|discriminate].
  destruct Hincl as (o' & [= <-] & _ & _ & _ & Hms & Hbs & ms & bytes & a & base
                     & Hm & Hb & _ & _ & Hbase & Hact).
  rewrite Hms in Hm. rewrite Hbs in Hb.
  exists ad, dd, ms, bytes, base.
  repeat (split; [first [assumption | reflexivity]|]).
  rewrite Hact. unfold expected_suffix. repeat apply conj.
  - intros Hpos. now rewrite (proj2 (Qlt_bool_iff 0 ms) Hpos).
  - intros Hle Hpos.
    now rewrite (proj2 (Qlt_bool_false 0 ms) Hle), (proj2 (Qlt_bool_iff 0 bytes) Hpos).
  - intros Hle Hle'.
    rewrite (proj2 (Qlt_bool_false 0 ms) Hle), (proj2 (Qlt_bool_false 0 bytes) Hle').
    apply app_nil_r.
Qed.

Lemma savings_annotation_witness :
  exists (o : opportunity) (base : pystr),
    process_entry (lit "payload") (JObj payload) = Return (Some o)
    /\ base_action (lit "payload") payload base
    /\ opp_action o = base ++ lit " (~2KB tasarruf)".
Proof.
  destruct (process_entry (lit "payload") (JObj payload)) as [[o|]|e] eqn:E;
    try (exfalso; vm_compute in E; discriminate E).
  destruct (savings_annotation _ _ _ E)
    as (ad & dd & ms & bytes & base & [= <-] & Hd & Hm & Hb & Hbase & _ & Hkb & _).
  vm_compute in Hd. injection Hd as <-.
  injection Hm as <-. injection Hb as <-.
  exists o, base. split; [reflexivity|]. split; [exact Hbase|].
  apply Hkb; [vm_compute; discriminate | reflexivity].
Defined.

(** A saving of 1500 ms is annotated with "1500" and "ms"; a saving of
    2048 bytes alone with "2" and "KB"; a fractional number of
    milliseconds is cut to its integer part. *)
Example annotation_values :
  savings_suffix (JInt 1500) (JInt 0) = Return (lit " (~1500ms tasarruf)")
  /\ savings_suffix (JInt 0) (JInt 2048) = Return (lit " (~2KB tasarruf)")
  /\ savings_suffix (JFloat (round_b64 (15007 # 10))) (JInt 4096)
     = Return (lit " (~1500ms tasarruf)")
  /\ savings_suffix (JInt 0) (JInt 2047) = Return (lit " (~1KB tasarruf)")
  /\ savings_suffix (JInt 0) (JInt 0) = Return [].
Proof. repeat split; vm_compute; reflexivity. Qed.

(* ================================================================== *)
(** * Facts about the analyzer *)
(* ================================================================== *)

Section AnalyzerFacts.

Import Analyzer.

Variable int_of_str : pystr -> option Z.

Lemma try_block_http_error (call : call_outcome) :
  try_block int_of_str call = Raise HTTPError ->
  exists r, call = CallReturns r.
Proof.
  destruct call as [f|r]; [|now exists r].
  destruct f; discriminate.
Qed.

(** ** The URL *)

Lemma lstrip_Forall (P : codepoint -> Prop) (s : pystr) :
  Forall P s -> Forall P (lstrip s).
Proof.
  induction 1 as [|c s Hc Hs IH]; [constructor|].
  cbn [lstrip]. destruct (isspace c); [exact IH | now constructor].
Qed.

Lemma strip_Forall (P : codepoint -> Prop) (s : pystr) :
  Forall P s -> Forall P (strip s).
Proof.
  intros H. unfold strip.
  now apply Forall_rev, lstrip_Forall, Forall_rev, lstrip_Forall.
Qed.

Lemma encode_utf8_returns (s : pystr) :
  encodable s -> exists bs, encode_utf8 s = Return bs.
Proof.
  induction 1 as [|c s Hc _ [bs IH]]; [now exists []|].
  cbn [encode_utf8]. rewrite Hc, IH. cbn [bind]. now eexists.
Qed.

Lemma encode_utf8_raises (s : pystr) :
  Exists (fun c => is_surrogate c = true) s ->
  encode_utf8 s = Raise UnicodeEncodeError.
Proof.
  induction 1 as [c s Hc|c s _ IH]; cbn [encode_utf8].
  - now rewrite Hc.
  - destruct (is_surrogate c); [reflexivity|]. now rewrite IH.
Qed.

Lemma quote_returns (url safe : pystr) :
  encodable url -> exists safe_url, quote (strip url) safe = Return safe_url.
Proof.
  intros H. unfold quote.
  destruct (encode_utf8_returns (strip url)) as [bs ->];
    [now apply strip_Forall|].
  cbn [bind]. now eexists.
Qed.

Lemma encodable_check (s : pystr) :
  forallb (fun c => negb (is_surrogate c)) s = true -> encodable s.
Proof.
  intros H. apply Forall_forall. intros c Hc.
  apply negb_true_iff. exact (proj1 (forallb_forall _ _) H c Hc).
Qed.

(** What a caller of [analyze] receives: the fault of [quote] when there
    is one; otherwise the metrics record when the [try] block runs to its
    end and [None] when anything in it raised. *)
Lemma analyze_outcome (url : pystr) (call : call_outcome) :
  snd (analyze int_of_str url call)
  = (_ <- quote (strip url) (lit ":/?=&") ;;
     Return (match try_block int_of_str call with
             | Return m => Some m
             | Raise _ => None
             end)).
Proof.
  unfold analyze.
  destruct (quote (strip url) (lit ":/?=&")) as [safe_url|e0]; [|reflexivity].
  cbn [bind].
  destruct (try_block int_of_str call) as [m|e] eqn:E; [reflexivity|].
  destruct e; cbn [handlers snd]; try reflexivity.
  destruct (try_block_http_error _ E) as [r ->]. reflexivity.
Qed.

Lemma analyze_requested (url : pystr) (call : call_outcome) :
  encodable url ->
  analyze int_of_str url call
  = match try_block int_of_str call with
    | Return m =>
        ([LogScanning (strip url); LogDone (score m) (lcp m) (cls m)],
         Return (Some m))
    | Raise e =>
        let (ls, r) := handlers (strip url) (response_of call) e in
        (LogScanning (strip url) :: ls, r)
    end.
Proof.
  intros H. unfold analyze.
  now destruct (quote_returns url (lit ":/?=&") H) as [safe_url ->].
Qed.


(** A URL that holds a surrogate makes [quote] raise before the [try]
    block is entered, and [analyze] raises with it. *)
Lemma analyze_unquotable (url : pystr) (call : call_outcome) :
  Exists (fun c => is_surrogate c = true) (strip url) ->
  snd (analyze int_of_str url call) = Raise UnicodeEncodeError.
Proof.
  intros H. unfold analyze, quote. now rewrite (encode_utf8_raises _ H).
Qed.

(** Quoting leaves the characters of a plain URL alone and writes the
    bytes of the others in hexadecimal. *)
Example quote_sample :
  quote (lit "https://example.com/a b?x=1&y=ğ") (lit ":/?=&")
  = Return (lit "https://example.com/a%20b?x=1&y=%C4%9F").
Proof. vm_compute. reflexivity. Qed.

(** The behaviours the error taxonomy names. *)
Lemma analyze_call_fault (url : pystr) (f : call_fault) :
  encodable url ->
  snd (analyze int_of_str url (CallRaises f)) = Return None.
Proof. intros H. rewrite (analyze_requested _ _ H). now destruct f. Qed.

Lemma analyze_error_status (url : pystr) (r : response) :
  encodable url ->
  (400 <= status_code r < 600)%Z ->
  snd (analyze int_of_str url (CallReturns r)) = Return None.
Proof.
  intros H [H1 H2]. rewrite (analyze_requested _ _ H).
  cbn [try_block]. unfold raise_for_status.
  apply Z.leb_le in H1. apply Z.ltb_lt in H2. now rewrite H1, H2.
Qed.

Lemma analyze_undecodable (url : pystr) (r : response) :
  encodable url ->
  json_body r = None ->
  snd (analyze int_of_str url (CallReturns r)) = Return None.
Proof.
  intros He H. rewrite analyze_outcome.
  destruct (quote_returns url (lit ":/?=&") He) as [safe_url ->].
  cbn [bind try_block]. destruct (raise_for_status r); [|reflexivity].
  cbn [bind]. unfold response_json. now rewrite H.
Qed.

Lemma analyze_not_an_object (url : pystr) (r : response) (data : json) :
  encodable url ->
  json_body r = Some data ->
  (forall d, data <> JObj d) ->
  snd (analyze int_of_str url (CallReturns r)) = Return None.
Proof.
  intros He H Hn. rewrite analyze_outcome.
  destruct (quote_returns url (lit ":/?=&") He) as [safe_url ->].
  cbn [bind try_block]. destruct (raise_for_status r); [|reflexivity].
  cbn [bind]. unfold response_json. rewrite H. cbn [bind].
  destruct data; try reflexivity. now destruct (Hn d).
Qed.

(** Each kind of fault is reported by a line of its own. *)
Lemma analyze_reports (url : pystr) :
  encodable url ->
  fst (analyze int_of_str url (CallRaises TimedOut))
  = [LogScanning (strip url); LogTimeout (strip url)]
  /\ fst (analyze int_of_str url (CallRaises TransportFailure))
     = [LogScanning (strip url); LogConnection (strip url)]
  /\ fst (analyze int_of_str url (CallRaises OtherFault))
     = [LogScanning (strip url); LogUnexpected (strip url)].
Proof. intros H. rewrite !(analyze_requested _ _ H). repeat split. Qed.

(** ** The score *)

Lemma scale_score_float (q : Q) :
  ~ (q == 0)%Q ->
  scale_score int_of_str (JFloat q) = Return (trunc (round_b64 (q * 100))).
Proof.
  intros H. unfold scale_score. cbn [truthy].
  destruct (Qeq_bool q 0) eqn:E; [|reflexivity].
  apply Qeq_bool_iff in E. contradiction.
Qed.

(** A score of 0.73 gives 73; a missing or null score gives 0. *)
Lemma score_examples (url : pystr) :
  encodable url ->
  snd (analyze int_of_str url
         (CallReturns (ok_response (score_body (JFloat (round_b64 (73 # 100)))))))
  = Return (Some {| score := 73; lcp := 0; cls := NInt 0; recommendations := [] |})
  /\ snd (analyze int_of_str url (CallReturns (ok_response (score_body JNull))))
     = Return (Some empty_metrics)
  /\ snd (analyze int_of_str url
            (CallReturns (ok_response
               (JObj [(lit "lighthouseResult",
                       JObj [(lit "categories",
                              JObj [(lit "performance", JObj [])])])]))))
     = Return (Some empty_metrics).
Proof.
  intros H. rewrite !(analyze_requested _ _ H).
  repeat split; vm_compute; reflexivity.
Qed.

(** C1: the score is cut to an integer, not rounded: the category score
    0.29 gives 28, where the nearest integer to its hundredfold is 29.
    This is what [analyze] returns for every URL, once the URL is
    quoted. *)
Theorem score_is_truncated (url : pystr) :
  snd (analyze int_of_str url
         (CallReturns (ok_response (score_body (JFloat (round_b64 (29 # 100)))))))
  = (_ <- quote (strip url) (lit ":/?=&") ;;
     Return (Some {| score := 28; lcp := 0; cls := NInt 0;
                     recommendations := [] |}))
  /\ rounded_score (round_b64 (29 # 100)) = 29%Z.
Proof.
  split; [|vm_compute; reflexivity].
  rewrite analyze_outcome.
  destruct (quote (strip url) (lit ":/?=&")); [|reflexivity].
  cbn [bind]. vm_compute. reflexivity.
Qed.

(** ** Responses with missing fields *)

Lemma status_ok (r : response) :
  (200 <= status_code r < 300)%Z -> raise_for_status r = Return tt.
Proof.
  intros [H1 H2]. unfold raise_for_status.
  destruct (400 <=? status_code r)%Z eqn:E; [|reflexivity].
  apply Z.leb_le in E. lia.
Qed.

Lemma get_missing (d : dict) (k : pystr) (default : json) :
  dict_get d k = None -> get d k default = default.
Proof. unfold get. now intros ->. Qed.

Lemma try_block_defaults (r : response) (data lh : dict) :
  raise_for_status r = Return tt ->
  json_body r = Some (JObj data) ->
  get data (lit "lighthouseResult") (JObj []) = JObj lh ->
  dict_get lh (lit "categories") = None ->
  dict_get lh (lit "audits") = None ->
  try_block int_of_str (CallReturns r) = Return empty_metrics.
Proof.
  intros Hs Hb Hl Hc Ha. cbn [try_block]. rewrite Hs. cbn [bind].
  unfold response_json. rewrite Hb. cbn [bind as_dict]. rewrite Hl.
  cbn [bind as_dict]. rewrite (get_missing _ _ _ Hc), (get_missing _ _ _ Ha).
  vm_compute. reflexivity.
Qed.

Lemma returned_metrics (url : pystr) (call : call_outcome) (m : metrics) :
  snd (analyze int_of_str url call) = Return (Some m) ->
  try_block int_of_str call = Return m.
Proof.
  rewrite analyze_outcome. intros H.
  apply bind_returns in H as (safe_url & _ & H).
  destruct (try_block int_of_str call); [now injection H as <- | discriminate].
Qed.

(** C10, as amended: a 2xx response whose body is an object without
    [lighthouseResult], or whose [lighthouseResult] is an object with
    neither [categories] nor [audits], yields the record with score 0,
    lcp 0.0, cls 0 and no recommendations.  When only [categories] is
    missing, a returned record has score 0; when only [audits] is
    missing, a returned record has lcp 0.0, cls 0 and no
    recommendations.  A response is there once the URL was quoted and
    the request made: the record is what [analyze] returns then. *)
Theorem missing_fields_default (url : pystr) (r : response) (data : dict) :
  (200 <= status_code r < 300)%Z ->
  json_body r = Some (JObj data) ->
  (dict_get data (lit "lighthouseResult") = None ->
   snd (analyze int_of_str url (CallReturns r))
   = (_ <- quote (strip url) (lit ":/?=&") ;; Return (Some empty_metrics)))
  /\ (forall lh,
        dict_get data (lit "lighthouseResult") = Some (JObj lh) ->
        (dict_get lh (lit "categories") = None ->
         dict_get lh (lit "audits") = None ->
         snd (analyze int_of_str url (CallReturns r))
         = (_ <- quote (strip url) (lit ":/?=&") ;;
            Return (Some empty_metrics)))
        /\ (dict_get lh (lit "categories") = None ->
            forall m,
              snd (analyze int_of_str url (CallReturns r)) = Return (Some m) ->
              score m = 0%Z)
        /\ (dict_get lh (lit "audits") = None ->
            forall m,
              snd (analyze int_of_str url (CallReturns r)) = Return (Some m) ->
              lcp m = 0%Q /\ cls m = NInt 0 /\ recommendations m = [])).
Proof.
  intros Hs Hb. apply status_ok in Hs. split.
  - intros Hl. rewrite analyze_outcome.
    rewrite (try_block_defaults r data []); try assumption; try reflexivity.
    now apply get_missing.
  - intros lh Hl.
    assert (Hg : get data (lit "lighthouseResult") (JObj []) = JObj lh)
      by (unfold get; now rewrite Hl).
    repeat apply conj.
    + intros Hc Ha. rewrite analyze_outcome.
      now rewrite (try_block_defaults r data lh).
    + intros Hc m H. apply (returned_metrics url) in H.
      revert H. cbn [try_block]. rewrite Hs. cbn [bind]. unfold response_json.
      rewrite Hb. cbn [bind as_dict]. rewrite Hg. cbn [bind as_dict].
      rewrite (get_missing _ _ _ Hc). cbn [as_dict bind].
      change (get [] (lit "performance") (JObj [])) with (JObj []).
      cbn [as_dict bind].
      change (scale_score int_of_str (get [] (lit "score") (JInt 0)))
        with (@Return Z 0%Z).
      cbn [bind]. intros H.
      apply bind_returns in H as (ad & _ & H).
      apply bind_returns in H as (la & _ & H).
      apply bind_returns in H as (ls & _ & H).
      apply bind_returns in H as (ca & _ & H).
      apply bind_returns in H as (cv & _ & H).
      apply bind_returns in H as (recs & _ & H).
      now injection H as <-.
    + intros Ha m H. apply (returned_metrics url) in H.
      revert H. cbn [try_block]. rewrite Hs. cbn [bind]. unfold response_json.
      rewrite Hb. cbn [bind as_dict]. rewrite Hg. cbn [bind as_dict].
      rewrite (get_missing _ _ _ Ha). intros H.
      apply bind_returns in H as (cd & _ & H).
      apply bind_returns in H as (pc & _ & H).
      apply bind_returns in H as (sc & _ & H).
      revert H. cbn [as_dict bind].
      change (get [] (lit "largest-contentful-paint") (JObj [])) with (JObj []).
      change (get [] (lit "cumulative-layout-shift") (JObj [])) with (JObj []).
      cbn [as_dict bind].
      change (get [] (lit "numericValue") (JInt 0)) with (JInt 0).
      change (truediv (JInt 0) 1000) with (@Return Q 0%Q).
      cbn [bind round4].
      change (extract_smart_recommendations []) with (@Return (list recommendation) []).
      cbn [bind]. intros [= <-]. cbn [lcp cls recommendations].
      repeat split; vm_compute; reflexivity.
Qed.

End AnalyzerFacts.



Lemma missing_fields_default_witness :
  snd (Analyzer.analyze no_int (lit "https://example.com")
         (Analyzer.CallReturns (ok_response (JObj []))))
  = Return (Some empty_metrics).
Proof.
  refine (proj1 (missing_fields_default no_int (lit "https://example.com")
                   (ok_response (JObj [])) [] _ eq_refl) eq_refl).
  vm_compute. split; [discriminate | reflexivity].
Defined.

(** The unamended statement fails on a response whose [lighthouseResult]
    lacks [categories] only: the audits are still read, so the record
    carries their LCP and their recommendations. *)
Lemma missing_categories_counterexample :
  (200 <= Analyzer.status_code audits_only_response < 300)%Z
  /\ (exists data lh,
        Analyzer.json_body audits_only_response = Some (JObj data)
        /\ dict_get data (lit "lighthouseResult") = Some (JObj lh)
        /\ dict_get lh (lit "categories") = None)
  /\ snd (Analyzer.analyze no_int (lit "https://example.com")
            (Analyzer.CallReturns audits_only_response))
     <> Return (Some empty_metrics)
  /\ exists m,
       snd (Analyzer.analyze no_int (lit "https://example.com")
              (Analyzer.CallReturns audits_only_response)) = Return (Some m)
       /\ Analyzer.score m = 0%Z
       /\ Analyzer.lcp m = (5 # 2)%Q
       /\ length (Analyzer.recommendations m) = 1.
Proof.
  split; [vm_compute; split; [discriminate | reflexivity]|].
  split; [do 2 eexists; repeat split|].
  split; [vm_compute; discriminate|].
  eexists. split; [vm_compute; reflexivity|]. repeat split.
Qed.

(* ================================================================== *)
(** * Facts about the report *)
(* ================================================================== *)

Section ReportFacts.

Import Report.

Variable repr_float : Q -> pystr.

(** ** Rows *)

Lemma length_ljust (w : nat) (s : pystr) :
  length (ljust w s) = Nat.max w (length s).
Proof. unfold ljust. rewrite length_app, repeat_length. lia. Qed.

Lemma interior_boxed (s : pystr) : interior (boxed s) = s.
Proof.
  unfold interior, boxed. change (lit "║") with [border]. cbn [app tl].
  apply removelast_last.
Qed.

Lemma is_boxed_boxed (s : pystr) : is_boxed (boxed s) = true.
Proof.
  unfold is_boxed, boxed. change (lit "║") with [border]. cbn [app].
  rewrite last_last, !N.eqb_refl, length_app. cbn [length andb].
  now rewrite Nat.add_comm.
Qed.

(** A row is as wide as the box, or as wide as its text when that is
    longer: [ljust] pads and never cuts. *)
Lemma row_width (s : pystr) :
  is_boxed (row s) = true
  /\ length (interior (row s)) = Nat.max WIDTH (length s).
Proof.
  unfold row. split; [apply is_boxed_boxed|].
  rewrite interior_boxed. apply length_ljust.
Qed.

(** ** The comparison section *)

Lemma comparison_row_in (date_str : pystr) (my_site comp : site_result)
    (competitors : list site_result) :
  In comp competitors ->
  In (comparison_row my_site comp)
     (report_lines repr_float date_str my_site competitors).
Proof.
  intros H. unfold report_lines, box_rows.
  apply in_or_app. left. apply in_or_app. right.
  apply in_or_app. left. now apply in_map.
Qed.

(** C8: for each comparison site the report has a row computed from
    [diff = primary.score - comparison.score]: behind its own marker, the
    score of the comparison and, for [diff > 0], that it trails by [diff]
    points; for [diff < 0], that it leads by [abs diff] points; for
    [diff = 0], that the two are level.  The three markers differ. *)
Theorem comparison_rows (date_str : pystr) (my_site comp : site_result)
    (competitors : list site_result) :
  In comp competitors ->
  let diff := (score my_site - score comp)%Z in
  let lines := report_lines repr_float date_str my_site competitors in
  ((0 < diff)%Z ->
   In (row (lit "    " ++ ljust 25 (lit "✅ " ++ label comp) ++ lit " "
              ++ lit "→ " ++ str_of_Z (score comp) ++ lit " puan ("
              ++ str_of_Z diff ++ lit " puan gerideler)")) lines)
  /\ ((diff < 0)%Z ->
      In (row (lit "    " ++ ljust 25 (lit "⚠️  " ++ label comp) ++ lit " "
                 ++ lit "→ " ++ str_of_Z (score comp) ++ lit " puan ("
                 ++ str_of_Z (Z.abs diff) ++ lit " puan ÖNDEler!)")) lines)
  /\ (diff = 0%Z ->
      In (row (lit "    " ++ ljust 25 (lit "🔄 " ++ label comp) ++ lit " "
                 ++ lit "→ " ++ str_of_Z (score comp) ++ lit " puan (Eşit)"))
         lines)
  /\ lit "✅ " <> lit "⚠️  " /\ lit "✅ " <> lit "🔄 " /\ lit "⚠️  " <> lit "🔄 ".
Proof.
  intros Hin diff lines.
  pose proof (comparison_row_in date_str my_site comp competitors Hin) as H.
  fold lines in H. unfold comparison_row in H. fold diff in H.
  repeat apply conj; try (vm_compute; discriminate).
  - intros Hd. apply Z.gtb_lt in Hd. rewrite Hd in H.
    exact H.
  - intros Hd.
    assert (Hg : (diff >? 0)%Z = false) by (rewrite Z.gtb_ltb; apply Z.ltb_ge; lia).
    apply Z.ltb_lt in Hd. rewrite Hg, Hd in H.
    exact H.
  - intros Hd. rewrite Hd in H. cbn [Z.gtb Z.ltb Z.compare] in H.
    exact H.
Qed.

(** ** The width of the rows *)

Lemma truncated_length (n : nat) (s : pystr) :
  length (if n + 3 <? length s then slice_to n s ++ lit "..." else s) <= n + 3.
Proof.
  destruct (n + 3 <? length s) eqn:E.
  - apply Nat.ltb_lt in E. rewrite length_app. unfold slice_to.
    rewrite length_firstn. change (length (lit "...")) with 3. lia.
  - apply Nat.ltb_ge in E. exact E.
Qed.

(** The title rows and the rows of the display value are cut before they
    are padded, so that they always fit. *)
Lemma title_row_width (i : nat) (r : rec_item) :
  length (interior (title_row i r)) = WIDTH.
Proof.
  unfold title_row. rewrite (proj2 (row_width _)).
  match goal with |- context [if 56 <? length ?s then _ else _] =>
    pose proof (truncated_length 53 s) as H end.
  cbn [Nat.add] in H. unfold WIDTH. lia.
Qed.

Lemma display_rows_width (r : rec_item) :
  Forall (fun l => length (interior l) = WIDTH) (display_rows r).
Proof.
  unfold display_rows.
  match goal with |- context [if nonempty ?d then [row _] else []] =>
    destruct (nonempty d) end; constructor; [|constructor].
  rewrite (proj2 (row_width _)).
  match goal with |- context [if 56 <? length ?s then _ else _] =>
    pose proof (truncated_length 53 s) as H end.
  cbn [Nat.add] in H. unfold WIDTH. lia.
Qed.

(** The row of the URL is not cut: a URL of more than 49 characters
    pushes the right border out. *)
Lemma url_row_width (date_str : pystr) (my_site : site_result)
    (competitors : list site_result) :
  In (row (lit "    URL: " ++ url my_site))
     (report_lines repr_float date_str my_site competitors)
  /\ length (interior (row (lit "    URL: " ++ url my_site)))
     = Nat.max WIDTH (9 + length (url my_site)).
Proof.
  split.
  - unfold report_lines, box_rows. cbn [app In]. tauto.
  - rewrite (proj2 (row_width _)), length_app. reflexivity.
Qed.

(** ** The action items *)

Lemma items_loop_eq (total_recs i : nat) (recs : list rec_item)
    (report : list pystr) :
  items_loop total_recs i recs report
  = report ++ concat (map (fun ir => item_rows total_recs (fst ir) (snd ir))
                          (combine (seq i (length recs)) recs)).
Proof.
  revert i report; induction recs as [|r recs IH]; intros i report.
  - cbn. now rewrite app_nil_r.
  - cbn [items_loop length seq combine map concat fst snd].
    rewrite IH. now rewrite <- app_assoc.
Qed.

Lemma spaced_snoc (ws : list pystr) (w : pystr) :
  spaced (ws ++ [w]) = spaced ws ++ w ++ lit " ".
Proof.
  unfold spaced. rewrite map_app, concat_app. cbn [map concat].
  now rewrite app_nil_r.
Qed.

(** ** The words of a wrapped text *)

Lemma split_go_words (s cur : pystr) :
  Forall (fun c => isspace c = false) cur ->
  Forall is_word (split_go s cur).
Proof.
  assert (Hrev : forall cur : pystr,
             cur <> [] -> Forall (fun c => isspace c = false) cur ->
             is_word (rev cur)).
  { intros c0 Hne H. split; [|now apply Forall_rev].
    intros E. apply Hne. apply (f_equal (@rev _)) in E.
    now rewrite rev_involutive in E. }
  revert cur; induction s as [|c s IH]; intros cur Hcur; cbn [split_go].
  - destruct cur; constructor; [|constructor]. now apply Hrev.
  - destruct (isspace c) eqn:E.
    + destruct cur; [now apply IH|].
      constructor; [now apply Hrev | now apply IH].
    + apply IH. now constructor.
Qed.

Lemma lstrip_nil (s : pystr) :
  lstrip s = [] -> Forall (fun c => isspace c = true) s.
Proof.
  induction s as [|c s IH]; cbn [lstrip]; [constructor|].
  destruct (isspace c) eqn:E; [|discriminate].
  intros H. constructor; [exact E | now apply IH].
Qed.

Lemma lstrip_head (s : pystr) (c : codepoint) (t : pystr) :
  lstrip s = c :: t -> isspace c = false.
Proof.
  induction s as [|x s IH]; cbn [lstrip]; [discriminate|].
  destruct (isspace x) eqn:E; [exact IH|]. now intros [= <- _].
Qed.

Lemma strip_nil_spaces (s : pystr) :
  strip s = [] -> Forall (fun c => isspace c = true) s.
Proof.
  unfold strip. intros H. apply (f_equal (@rev _)) in H.
  rewrite rev_involutive in H. cbn [rev] in H.
  apply lstrip_nil, Forall_rev in H. rewrite rev_involutive in H.
  destruct (lstrip s) as [|c t] eqn:E; [now apply lstrip_nil|].
  apply lstrip_head in E. inversion H; congruence.
Qed.

(** A line that holds a character other than white space is written. *)
Lemma strip_nonempty (s : pystr) :
  Exists (fun c => isspace c = false) s -> nonempty (strip s) = true.
Proof.
  intros H. destruct (strip s) eqn:E; [|reflexivity].
  apply strip_nil_spaces in E. apply Exists_exists in H as (c & Hc & Hs).
  rewrite Forall_forall in E. rewrite (E c Hc) in Hs. discriminate.
Qed.

Lemma word_visible (w : pystr) :
  is_word w -> Exists (fun c => isspace c = false) w.
Proof.
  intros [Hne H]. destruct w as [|c w]; [contradiction|].
  inversion H; subst. now left.
Qed.

Lemma wrap_words_block (words : list pystr) (indent : pystr) (g : list pystr) :
  Forall is_word words ->
  Exists (fun c => isspace c = false) (indent ++ spaced g) ->
  exists g' gs,
    g' ++ concat gs = words
    /\ wrap_words words (indent ++ spaced g)
       = row (indent ++ spaced (g ++ g'))
         :: map (fun ws => row (lit "         " ++ spaced ws)) gs
    /\ (g' = [] \/ length (indent ++ spaced (g ++ g')) <= 55)
    /\ Forall (fun ws => length (lit "         " ++ spaced ws) <= 55
                         \/ length ws = 1) gs
    /\ breaks_late (indent ++ spaced (g ++ g')) gs.
Proof.
  intros H; revert indent g; induction H as [|w words Hw _ IH];
    intros indent g Hv; cbn [wrap_words].
  - exists [], []. rewrite (app_nil_r g), (strip_nonempty _ Hv).
    split; [reflexivity|]. split; [reflexivity|]. split; [now left|].
    split; [constructor | exact I].
  - destruct (length ((indent ++ spaced g) ++ w) <=? 54) eqn:E.
    + destruct (IH indent (g ++ [w])) as (g' & gs & Hc & Hr & Hl & Hf & Hb).
      { rewrite spaced_snoc, app_assoc. apply Exists_app. left. exact Hv. }
      exists (w :: g'), gs.
      rewrite spaced_snoc, app_assoc in Hr.
      replace (g ++ w :: g') with ((g ++ [w]) ++ g')
        by (now rewrite <- app_assoc).
      repeat split; try assumption.
      * cbn [app]. now rewrite Hc.
      * right. destruct Hl as [-> | Hl]; [|exact Hl].
        rewrite app_nil_r, spaced_snoc. apply Nat.leb_le in E.
        rewrite !length_app in *. change (length (lit " ")) with 1. lia.
    + destruct (IH (lit "         ") [w]) as (g' & gs & Hc & Hr & Hl & Hf & Hb).
      { apply Exists_app. right. unfold spaced. cbn [map concat].
        apply Exists_app. left. apply Exists_app. left.
        now apply word_visible. }
      exists [], ((w :: g') :: gs). rewrite (app_nil_r g).
      unfold spaced at 1 in Hr. cbn [map concat] in Hr.
      rewrite (app_nil_r (w ++ lit " ")) in Hr. rewrite Hr.
      split; [cbn [app concat]; now rewrite <- Hc|].
      split; [reflexivity|].
      split; [now left|].
      split.
      * constructor; [|exact Hf].
        destruct Hl as [-> | Hl]; [now right | now left].
      * cbn [breaks_late]. split; [|exact Hb].
        apply Nat.leb_gt in E. exact E.
Qed.

Lemma action_rows_block (r : rec_item) : action_block (action r) (action_rows r).
Proof.
  unfold action_block, action_rows.
  destruct (action r) as [[|c s]|]; try reflexivity. cbn [nonempty].
  destruct (wrap_words_block (split (c :: s)) (lit "       → ") [])
    as (g & gs & Hc & Hr & Hl & Hf & Hb).
  - apply split_go_words. constructor.
  - vm_compute. right. right. right. right. right. right. right. now left.
  - exists g, gs. cbn [app] in *. unfold spaced at 1 in Hr. cbn [map concat] in Hr.
    rewrite app_nil_r in Hr.
    repeat split; try assumption.
    destruct Hl as [-> | Hl]; [vm_compute; lia | exact Hl].
Qed.

(** C9: without recommendations the section is a single line of
    congratulation.  Otherwise it lists the recommendations, numbered
    from 1.  The items 1 to 5, and they only, carry their action text:
    after the title row and the display rows come the rows of the text
    wrapped at 54 characters, which hold every word of it in order, the
    first row behind the arrow and the others indented, no line broken
    before it is full.  A blank row follows every third item but not
    the last one. *)
Theorem action_items_layout (my_site : site_result) (total_recs i : nat)
    (r : rec_item) :
  (recommendations my_site = [] ->
   action_items my_site
   = [row (lit "    🎉 Harika! Kritik bir iyileştirme önerisi yok.")])
  /\ (recommendations my_site <> [] ->
      action_items my_site
      = [row (lit "    Toplam "
                ++ str_of_Z (Z.of_nat (length (recommendations my_site)))
                ++ lit " iyileştirme fırsatı bulundu:");
         blank_row]
        ++ concat (map (fun ir => item_rows (length (recommendations my_site))
                                            (fst ir) (snd ir))
                       (combine (seq 1 (length (recommendations my_site)))
                                (recommendations my_site))))
  /\ (i <= 5 ->
      exists block,
        action_block (action r) block
        /\ item_rows total_recs i r
           = title_row i r :: display_rows r ++ block
             ++ (if (i mod 3 =? 0) && (i <? total_recs)
                 then [blank_row] else []))
  /\ (5 < i ->
      item_rows total_recs i r
      = title_row i r :: display_rows r
        ++ (if (i mod 3 =? 0) && (i <? total_recs) then [blank_row] else []))
  /\ ((exists k, i = 3 * k) /\ i < total_recs <->
      (if (i mod 3 =? 0) && (i <? total_recs) then [blank_row] else [])
      = [blank_row]).
Proof.
  repeat apply conj.
  - unfold action_items. now intros ->.
  - unfold action_items. destruct (recommendations my_site) as [|r0 recs];
      [congruence|]. intros _. apply items_loop_eq.
  - intros H. exists (action_rows r). split; [apply action_rows_block|].
    unfold item_rows. apply Nat.leb_le in H. now rewrite H.
  - intros H. unfold item_rows. apply Nat.leb_gt in H. now rewrite H.
  - intros [[k ->] Hlt]. apply Nat.ltb_lt in Hlt. rewrite Hlt.
    now rewrite Nat.mul_comm, Nat.Div0.mod_mul.
  - intros H. destruct (i mod 3 =? 0) eqn:E1; [|discriminate].
    destruct (i <? total_recs) eqn:E2; [|discriminate].
    apply Nat.eqb_eq in E1. apply Nat.ltb_lt in E2. split; [|exact E2].
    exists (i / 3). rewrite (Nat.div_mod_eq i 3) at 1. lia.
Qed.

End ReportFacts.

Lemma comparison_rows_witness :
  In (Report.row (lit "    ✅ Rakip                   → 70 puan (20 puan gerideler)"))
     (Report.report_lines repr_tenths sample_date (site "Benim Sitem" 90)
        [site "Rakip" 70; site "Lider" 95])
  /\ In (Report.row (lit "    ⚠️  Lider                 → 95 puan (5 puan ÖNDEler!)"))
        (Report.report_lines repr_tenths sample_date (site "Benim Sitem" 90)
           [site "Rakip" 70; site "Lider" 95]).
Proof.
  split.
  - refine (proj1 (comparison_rows repr_tenths sample_date (site "Benim Sitem" 90)
                     (site "Rakip" 70) [site "Rakip" 70; site "Lider" 95] _) _).
    + left. reflexivity.
    + reflexivity.
  - refine (proj1 (proj2 (comparison_rows repr_tenths sample_date
                            (site "Benim Sitem" 90) (site "Lider" 95)
                            [site "Rakip" 70; site "Lider" 95] _)) _).
    + right. left. reflexivity.
    + reflexivity.
Defined.
Lemma action_items_layout_witness :
  exists block,
    action_block (Report.action (sample_rec 1)) block
    /\ Report.item_rows 7 1 (sample_rec 1)
       = Report.title_row 1 (sample_rec 1) :: Report.display_rows (sample_rec 1)
         ++ block ++ [].
Proof.
  exact (proj1 (proj2 (proj2 (action_items_layout busy_site 7 1 (sample_rec 1))))
           (le_S 1 4 (le_S 1 3 (le_S 1 2 (le_S 1 1 (le_n 1)))))).
Defined.

(** The action items of the sample: 2 heading rows, then 7 items of a
    title row and a display row each, 3 rows of action text for each of
    the first five, and a blank row after the third and the sixth. *)
Example sample_action_items :
  length (Report.action_items busy_site) = 2 + 7 * 2 + 5 * 3 + 2
  /\ map (@length _) (Report.action_rows (sample_rec 1)) = [60; 60; 60]
  /\ Report.action_rows (sample_rec 1)
     = [Report.row (lit "       → Load the style sheets and the scripts of the ");
        Report.row (lit "         page with async or defer and inline the ");
        Report.row (lit "         critical part ")].
Proof. repeat split; vm_compute; reflexivity. Qed.

(** C2: the row of a comparison site is padded but never cut.  For a
    primary site at 90 and a comparison site "Rakip" at 70, the row holds
    59 characters between the borders: one more than the box is wide. *)
Theorem comparison_row_overflows :
  nth 10 (Report.lines_of
            (Report.generate_report repr_tenths sample_date
               (site "Benim Sitem" 90) [site "Rakip" 70])) []
  = Report.boxed (lit "    ✅ Rakip                   → 70 puan (20 puan gerideler)")
  /\ Report.is_boxed
       (nth 10 (Report.lines_of
                  (Report.generate_report repr_tenths sample_date
                     (site "Benim Sitem" 90) [site "Rakip" 70])) []) = true
  /\ length (Report.interior
               (nth 10 (Report.lines_of
                          (Report.generate_report repr_tenths sample_date
                             (site "Benim Sitem" 90) [site "Rakip" 70])) []))
     = 59.
Proof. repeat split; vm_compute; reflexivity. Qed.

(** All other rows of that report are 58 characters wide. *)
Example sample_report_widths :
  map (fun l => length (Report.interior l))
      (filter Report.is_boxed
         (Report.lines_of
            (Report.generate_report repr_tenths sample_date
               (site "Benim Sitem" 90) [site "Rakip" 70])))
  = [58; 58; 58; 58; 58; 58; 58; 59; 58; 58; 58; 58].
Proof. vm_compute. reflexivity. Qed.

(* ================================================================== *)
(** * Totality on well-formed input *)
(* ================================================================== *)

Lemma is_number_num (v : json) :
  is_number v = true -> exists q, num_of v = Some q.
Proof. unfold is_number. destruct (num_of v) as [q|]; [eauto | discriminate]. Qed.

Lemma number_to_float (v : json) (q : Q) :
  num_of v = Some q -> exists a, to_float v = Some a.
Proof. destruct v; simpl; try discriminate; eauto. Qed.

(** The loop body raises nothing on an audit record. *)
Lemma record_processed (k : pystr) (v : json) :
  is_audit_record v = true -> exists r, process_entry k v = Return r.
Proof.
  unfold is_audit_record, process_entry.
  destruct v as [| | | | | |ad]; try discriminate. cbn [as_dict bind].
  destruct (get ad (lit "details") (JObj [])) as [| | | | | |dd]; try discriminate.
  cbn [as_dict bind]. intros H.
  apply andb_true_iff in H as [H Hdescr].
  apply andb_true_iff in H as [H Hbytes].
  apply andb_true_iff in H as [Hscore Hms].
  assert (Hs : exists skip, not_a_problem (get ad (lit "score") JNull) = Return skip).
  { unfold not_a_problem, ge_float.
    destruct (get ad (lit "score") JNull); try discriminate; simpl; eauto. }
  destruct Hs as [skip ->]. cbn [bind]. destruct skip; [eauto|].
  match goal with |- context [if ?c then _ else _] => destruct c end; [|eauto].
  destruct (is_number_num _ Hbytes) as [b Hb].
  destruct (is_number_num _ Hms) as [m Hm].
  destruct (number_to_float _ _ Hm) as [a Ha].
  unfold truediv at 1. rewrite Hb. cbn [bind].
  unfold add_float. rewrite Ha. cbn [bind].
  destruct (get ad (lit "description") (JStr [])) as [| | | |s| |];
    try discriminate. cbn [slice_json bind].
  rewrite (savings_suffix_spec _ _ _ _ Hm Hb). cbn [bind].
  destruct (translations_get AUDIT_TRANSLATIONS k); cbn [concat_str bind]; eauto.
Qed.

(** The extractor returns a list for every mapping of audit records. *)
Lemma extract_total (audits : dict) :
  forallb (fun kv => is_audit_record (snd kv)) audits = true ->
  exists recs, extract_smart_recommendations audits = Return recs.
Proof.
  intros H. unfold extract_smart_recommendations.
  rewrite collect_total; [cbn [bind]; eauto|].
  apply Forall_forall. intros [k v] Hin.
  rewrite forallb_forall in H. apply record_processed. now apply (H (k, v)).
Qed.

(** An entry whose [details] is present but is no dictionary makes the
    extractor raise before the score is looked at. *)
Example malformed_details_raise :
  extract_smart_recommendations
    [(lit "odd", JObj [(lit "score", JNull); (lit "details", JNull)])]
  = Raise AttributeError.
Proof. reflexivity. Qed.

(** In the sample of seven recommendations, five rows start an action
    text. *)
Example sample_arrow_rows :
  length (filter is_arrow_row (Report.action_items busy_site)) = 5
  /\ map is_arrow_row (Report.item_rows 7 6 (sample_rec 6)) = [false; false; false].
Proof. split; vm_compute; reflexivity. Qed.

(* ================================================================== *)
(** * Facts about the sanitizer and the message *)
(* ================================================================== *)

Section MailerFacts.

Import Mailer.

Lemma replace_char_app (old : codepoint) (new a b : pystr) :
  replace_char old new (a ++ b) = replace_char old new a ++ replace_char old new b.
Proof.
  induction a as [|c a IH]; [reflexivity|].
  cbn [app replace_char]. now rewrite IH, app_assoc.
Qed.

Lemma replace_flat_map (old : codepoint) (new : pystr)
    (f : codepoint -> pystr) (t : pystr) :
  replace_char old new (flat_map f t)
  = flat_map (fun c => replace_char old new (f c)) t.
Proof.
  induction t as [|c t IH]; [reflexivity|].
  cbn [flat_map]. now rewrite replace_char_app, IH.
Qed.

Lemma fold_replace_flat_map (reps : list (codepoint * pystr))
    (f : codepoint -> pystr) (t : pystr) :
  fold_left (fun t r => replace_char (fst r) (snd r) t) reps (flat_map f t)
  = flat_map
      (fun c => fold_left (fun t r => replace_char (fst r) (snd r) t) reps (f c))
      t.
Proof.
  revert f; induction reps as [|r reps IH]; intros f; [reflexivity|].
  cbn [fold_left]. now rewrite replace_flat_map, IH.
Qed.

Lemma flat_map_single (t : pystr) : flat_map (fun c => [c]) t = t.
Proof. induction t as [|c t IH]; [reflexivity|]. cbn. now rewrite IH. Qed.

Lemma sanitize_chars (text : pystr) :
  sanitize_for_email text = flat_map clean_char text.
Proof.
  unfold sanitize_for_email. destruct text as [|c0 t0]; [reflexivity|].
  cbn [nonempty]. generalize (c0 :: t0) as text. intros text.
  rewrite <- (flat_map_single text) at 1.
  rewrite fold_replace_flat_map. unfold utf8_replace.
  induction text as [|c text IH]; [reflexivity|].
  cbn [flat_map]. rewrite map_app, IH. f_equal.
  unfold clean_char, replacements. cbn [fold_left fst snd replace_char app].
  destruct (c =? 160)%N eqn:E1.
  { apply N.eqb_eq in E1. subst c. reflexivity. }
  cbn [replace_char app].
  destruct (c =? 8203)%N eqn:E2; [reflexivity|]. cbn [replace_char app].
  destruct (c =? 8204)%N eqn:E3; [reflexivity|]. cbn [replace_char app].
  destruct (c =? 8205)%N eqn:E4; [reflexivity|]. cbn [replace_char app].
  destruct (c =? 65279)%N eqn:E5; [reflexivity|]. cbn [map orb app].
  now destruct (is_surrogate c).
Qed.

Lemma clean_char_wanted (c : codepoint) :
  Forall (fun x => unwanted x = false) (clean_char c).
Proof.
  unfold clean_char.
  destruct (c =? 160)%N eqn:E1; [repeat constructor|].
  destruct (c =? 8203)%N eqn:E2; [constructor|].
  destruct (c =? 8204)%N eqn:E3; [constructor|].
  destruct (c =? 8205)%N eqn:E4; [constructor|].
  destruct (c =? 65279)%N eqn:E5; [constructor|]. cbn [orb].
  destruct (is_surrogate c) eqn:E6; constructor; try constructor.
  unfold unwanted. now rewrite E1, E2, E3, E4, E5, E6.
Qed.

Lemma clean_char_fixed (c : codepoint) :
  unwanted c = false -> clean_char c = [c].
Proof.
  unfold unwanted, clean_char. intros H.
  apply orb_false_iff in H as [H H6].
  apply orb_false_iff in H as [H H5].
  apply orb_false_iff in H as [H H4].
  apply orb_false_iff in H as [H H3].
  apply orb_false_iff in H as [H1 H2].
  now rewrite H1, H2, H3, H4, H5, H6.
Qed.

Lemma clean_char_short (c : codepoint) : length (clean_char c) <= 1.
Proof.
  unfold clean_char.
  repeat match goal with |- context [if ?b then _ else _] => destruct b end;
    cbn; lia.
Qed.

Lemma sanitize_wanted (text : pystr) :
  Forall (fun c => unwanted c = false) (sanitize_for_email text).
Proof.
  rewrite sanitize_chars. induction text as [|c text IH]; [constructor|].
  cbn [flat_map]. apply Forall_app. split; [apply clean_char_wanted | exact IH].
Qed.

Lemma sanitize_fixed (text : pystr) :
  Forall (fun c => unwanted c = false) text ->
  sanitize_for_email text = text.
Proof.
  rewrite sanitize_chars.
  induction 1 as [|c text Hc _ IH]; [reflexivity|].
  cbn [flat_map]. now rewrite (clean_char_fixed c Hc), IH.
Qed.

(** X1: the sanitized text holds none of the characters the function is
    there to remove, whatever the input, and is never longer than the
    input. *)
Theorem sanitize_removes_unwanted (text : pystr) :
  Forall (fun c => unwanted c = false) (sanitize_for_email text)
  /\ length (sanitize_for_email text) <= length text.
Proof.
  split; [apply sanitize_wanted|]. rewrite sanitize_chars.
  induction text as [|c text IH]; [reflexivity|].
  cbn [flat_map length]. rewrite length_app.
  pose proof (clean_char_short c). lia.
Qed.

(** X2: a text without such characters is returned as it is. *)
Theorem sanitize_keeps_clean_text (text : pystr) :
  Forall (fun c => unwanted c = false) text ->
  sanitize_for_email text = text.
Proof. apply sanitize_fixed. Qed.

(** X3: sanitizing twice is sanitizing once. *)
Theorem sanitize_idempotent (text : pystr) :
  sanitize_for_email (sanitize_for_email text) = sanitize_for_email text.
Proof. apply sanitize_fixed, sanitize_wanted. Qed.

Lemma ascii_wanted (text : pystr) :
  Forall (fun c => (c < 128)%N) text ->
  Forall (fun c => unwanted c = false) text.
Proof.
  apply Forall_impl. intros c Hc. unfold unwanted, is_surrogate.
  repeat (apply orb_false_iff; split);
    first [apply N.eqb_neq; lia | idtac].
  apply andb_false_iff. left. apply N.leb_gt. lia.
Qed.

Lemma ascii_replace_ascii (text : pystr) :
  Forall (fun c => (c < 128)%N) text -> ascii_replace text = text.
Proof.
  induction 1 as [|c text Hc _ IH]; [reflexivity|].
  cbn [ascii_replace map]. fold (ascii_replace text). rewrite IH.
  apply N.ltb_lt in Hc. now rewrite Hc.
Qed.

Lemma ascii_check (text : pystr) :
  forallb (fun c => (c <? 128)%N) text = true ->
  Forall (fun c => (c < 128)%N) text.
Proof.
  intros H. apply Forall_forall. intros c Hc.
  apply N.ltb_lt. exact (proj1 (forallb_forall _ _) H c Hc).
Qed.

(** X4: the subject of the message is plain ASCII whatever the date
    string holds. *)
Theorem subject_is_ascii (sender date_str report_content : pystr) :
  Forall (fun c => (c < 128)%N)
         (msg_subject (build_message sender date_str report_content)).
Proof.
  unfold build_message. cbn [msg_subject]. unfold ascii_replace.
  apply Forall_map, Forall_forall. intros c _.
  destruct (c <? 128)%N eqn:E; [now apply N.ltb_lt | reflexivity].
Qed.

(** X5: for a date string of ASCII characters the subject is the fixed
    heading followed by that date, and a report of ASCII characters is
    the body unchanged. *)
Theorem plain_message_unchanged (sender date_str report_content : pystr) :
  Forall (fun c => (c < 128)%N) date_str ->
  Forall (fun c => (c < 128)%N) report_content ->
  build_message sender date_str report_content
  = {| msg_from := sender;
       msg_to := sender;
       msg_subject := lit "SEO-Pulse Performans Raporu - " ++ date_str;
       msg_body := report_content |}.
Proof.
  intros Hd Hr. unfold build_message.
  assert (Hs : Forall (fun c => (c < 128)%N)
                      (lit "SEO-Pulse Performans Raporu - " ++ date_str)).
  { apply Forall_app. split; [|exact Hd].
    apply ascii_check. vm_compute. reflexivity. }
  rewrite (sanitize_fixed _ (ascii_wanted _ Hs)).
  rewrite (sanitize_fixed _ (ascii_wanted _ Hr)).
  now rewrite (ascii_replace_ascii _ Hs).
Qed.

End MailerFacts.

Lemma sanitize_keeps_clean_text_witness :
  Mailer.sanitize_for_email (lit "Performans: 90/100") = lit "Performans: 90/100".
Proof.
  apply sanitize_keeps_clean_text, ascii_wanted, ascii_check.
  vm_compute. reflexivity.
Defined.

Lemma plain_message_unchanged_witness :
  Mailer.msg_subject
    (Mailer.build_message (lit "me@example.com") (lit "04/11/2026") (lit "ok"))
  = lit "SEO-Pulse Performans Raporu - 04/11/2026".
Proof.
  rewrite plain_message_unchanged;
    [reflexivity | apply ascii_check; vm_compute; reflexivity ..].
Defined.

(** A report line with a no-break space, a zero-width joiner and a
    byte-order mark. *)
Example sanitize_sample :
  Mailer.sanitize_for_email [65; 160; 66; 8205; 65279; 67]%N = [65; 32; 66; 67]%N.
Proof. reflexivity. Qed.

(* ================================================================== *)
(** * Facts about the orchestrator *)
(* ================================================================== *)

Section OrchestratorFacts.

Import Analyzer Orchestrator.

Variable int_of_str : pystr -> option Z.

(** What the loop reads from [analyze] *)
Lemma analyze_metrics (s : site) (call : call_outcome) :
  match snd (analyze int_of_str
               match site_url s with Some u => u | None => [] end call) with
  | Return (Some m) => Some m
  | Return None | Raise _ => None
  end = metrics_for int_of_str (s, call).
Proof.
  unfold metrics_for. cbn [fst snd]. rewrite analyze_outcome.
  destruct (quote _ _); [|reflexivity]. cbn [bind].
  now destruct (try_block int_of_str call).
Qed.

Lemma visit_spec (total index : nat) (s : site) (call : call_outcome)
    (st : run) :
  let st' := visit int_of_str total index s call st in
  let new := results int_of_str [(s, call)] in
  my_site_data st' = latest_primary new (my_site_data st)
  /\ competitor_data st'
     = competitor_data st ++ filter (fun d => negb (is_primary d)) new
  /\ success_count st' = success_count st + length new
  /\ error_count st' = error_count st + (1 - length new)
  /\ effects st' = effects st ++ visit_effects int_of_str total index (s, call).
Proof.
  unfold visit, results, measured, visit_effects, saves, latest_primary.
  cbn [flat_map fst snd]. rewrite <- (analyze_metrics s call).
  destruct (snd (analyze int_of_str _ call)) as [[m|]|e]; cbn [app];
    destruct (index <? total - 1);
    cbn [my_site_data competitor_data success_count error_count effects
         fold_left filter length app];
    unfold is_primary; cbn [sd_label];
    try match goal with
        | |- context [pystr_eqb ?a ?b] => destruct (pystr_eqb a b)
        end;
    cbn [negb app length]; rewrite ?app_nil_r, <- ?app_assoc;
    repeat split; try reflexivity; try lia.
Qed.

Lemma results_cons (sc : site * call_outcome)
    (sites : list (site * call_outcome)) :
  results int_of_str (sc :: sites)
  = results int_of_str [sc] ++ results int_of_str sites.
Proof. unfold results. cbn [flat_map]. now rewrite app_nil_r. Qed.

Lemma results_length (sites : list (site * call_outcome)) :
  length (results int_of_str sites) <= length sites.
Proof.
  induction sites as [|sc sites IH]; [reflexivity|].
  rewrite results_cons, length_app. unfold results at 1. cbn [flat_map length].
  destruct (measured int_of_str sc); cbn [app length]; lia.
Qed.

Lemma saves_cons (sc : site * call_outcome)
    (sites : list (site * call_outcome)) :
  saves int_of_str (sc :: sites) = saves int_of_str [sc] ++ saves int_of_str sites.
Proof. unfold saves. cbn [flat_map]. now rewrite app_nil_r. Qed.

(** The variables of the loop when it is left *)
Lemma sites_loop_spec (total index : nat) (sites : list (site * call_outcome))
    (st : run) :
  let st' := sites_loop int_of_str total index sites st in
  my_site_data st' = latest_primary (results int_of_str sites) (my_site_data st)
  /\ competitor_data st'
     = competitor_data st
       ++ filter (fun d => negb (is_primary d)) (results int_of_str sites)
  /\ success_count st' = success_count st + length (results int_of_str sites)
  /\ error_count st'
     = error_count st + (length sites - length (results int_of_str sites))
  /\ effects st'
     = effects st
       ++ concat (map (fun p => visit_effects int_of_str total (fst p) (snd p))
                      (combine (seq index (length sites)) sites)).
Proof.
  revert index st; induction sites as [|[s call] sites IH]; intros index st.
  - cbn. rewrite !app_nil_r. repeat split; lia.
  - cbn [sites_loop].
    destruct (visit_spec total index s call st) as (V1 & V2 & V3 & V4 & V5).
    destruct (IH (S index) (visit int_of_str total index s call st))
      as (H1 & H2 & H3 & H4 & H5).
    cbv zeta. rewrite H1, H2, H3, H4, H5, V1, V2, V3, V4, V5.
    rewrite (results_cons (s, call) sites).
    pose proof (results_length sites) as Hl.
    pose proof (results_length [(s, call)]) as Hl1. cbn [length] in Hl1.
    unfold latest_primary. rewrite fold_left_app, filter_app, !length_app.
    cbn [length seq combine map concat fst snd].
    rewrite <- !app_assoc. repeat split; try reflexivity; lia.
Qed.

Lemma completed (cfg : config) (connected : bool)
    (sites : list (site * call_outcome)) (st : run)
    (report_for : option (site_data * list site_data)) :
  main int_of_str cfg connected sites = Completed st report_for ->
  sites <> []
  /\ st = sites_loop int_of_str (length sites) 0 sites start
  /\ report_for = match my_site_data st with
                  | Some mine => Some (mine, competitor_data st)
                  | None => None
                  end.
Proof.
  unfold main. destruct (negb (validate cfg)); [discriminate|].
  destruct (negb connected); [discriminate|].
  destruct sites as [|sc sites]; [discriminate|].
  intros [= <- <-]. repeat split. discriminate.
Qed.

(** ** The pauses *)

Lemma visit_sleeps (total index : nat) (sc : site * call_outcome) :
  filter is_sleep (visit_effects int_of_str total index sc)
  = if index <? total - 1 then [Slept API_RATE_LIMIT_SECONDS] else [].
Proof.
  unfold visit_effects, saves. cbn [flat_map filter is_sleep].
  rewrite app_nil_r, filter_app.
  destruct (metrics_for int_of_str sc); cbn [filter is_sleep app];
    now destruct (index <? total - 1).
Qed.

Lemma loop_sleeps (total index : nat) (sites : list (site * call_outcome)) :
  index + length sites = total ->
  length (filter is_sleep
            (concat (map (fun p => visit_effects int_of_str total (fst p) (snd p))
                         (combine (seq index (length sites)) sites))))
  = length sites - 1.
Proof.
  revert index; induction sites as [|sc sites IH]; intros index H; [reflexivity|].
  cbn [length seq combine map concat fst snd] in *.
  rewrite filter_app, length_app, visit_sleeps, IH by lia.
  destruct sites as [|sc' sites].
  - cbn [length] in *. replace (index <? total - 1) with false; [reflexivity|].
    symmetry. apply Nat.ltb_ge. lia.
  - cbn [length] in *. replace (index <? total - 1) with true; [cbn; lia|].
    symmetry. apply Nat.ltb_lt. lia.
Qed.

Lemma loop_last (total index : nat) (sites : list (site * call_outcome))
    (before : list effect) :
  index + length sites = total ->
  sites <> [] ->
  is_sleep
    (last (before
           ++ concat (map (fun p => visit_effects int_of_str total (fst p) (snd p))
                          (combine (seq index (length sites)) sites)))
          (Slept 0)) = false.
Proof.
  revert index before; induction sites as [|sc sites IH];
    intros index before H Hne; [congruence|].
  cbn [length seq combine map concat fst snd] in *.
  destruct sites as [|sc' sites].
  - cbn [length seq combine map concat app] in *. rewrite app_nil_r.
    unfold visit_effects. replace (index <? total - 1) with false
      by (symmetry; apply Nat.ltb_ge; lia).
    rewrite app_nil_r. unfold saves. cbn [flat_map]. rewrite app_nil_r.
    destruct (metrics_for int_of_str sc).
    + change (before ++ Analyzed ?u :: [?x]) with (before ++ [Analyzed u] ++ [x]).
      rewrite app_assoc, last_last. reflexivity.
    + cbn [app]. rewrite last_last. reflexivity.
  - rewrite app_assoc. apply IH; [cbn [length] in *; lia | discriminate].
Qed.

Lemma sleeps_are_pauses (total index : nat) (sites : list (site * call_outcome)) :
  Forall (fun e => is_sleep e = true -> e = Slept 5)
    (concat (map (fun p => visit_effects int_of_str total (fst p) (snd p))
                 (combine (seq index (length sites)) sites))).
Proof.
  revert index; induction sites as [|sc sites IH]; intros index; [constructor|].
  cbn [length seq combine map concat fst snd].
  apply Forall_app. split; [|apply IH].
  unfold visit_effects, saves. cbn [flat_map]. rewrite app_nil_r.
  constructor; [discriminate|]. apply Forall_app. split.
  - destruct (metrics_for int_of_str sc); repeat constructor; discriminate.
  - destruct (index <? total - 1); repeat constructor.
Qed.

Lemma visit_saves (total index : nat) (sc : site * call_outcome) :
  filter is_save (visit_effects int_of_str total index sc) = saves int_of_str [sc].
Proof.
  unfold visit_effects, saves. cbn [flat_map filter is_save].
  rewrite app_nil_r, filter_app.
  destruct (metrics_for int_of_str sc); cbn [filter is_save app];
    now destruct (index <? total - 1).
Qed.

Lemma loop_saves (total index : nat) (sites : list (site * call_outcome)) :
  filter is_save
    (concat (map (fun p => visit_effects int_of_str total (fst p) (snd p))
                 (combine (seq index (length sites)) sites)))
  = saves int_of_str sites.
Proof.
  revert index; induction sites as [|sc sites IH]; intros index; [reflexivity|].
  cbn [length seq combine map concat fst snd].
  now rewrite filter_app, visit_saves, IH, <- saves_cons.
Qed.

Lemma saves_length (sites : list (site * call_outcome)) :
  length (saves int_of_str sites) = length (results int_of_str sites).
Proof.
  induction sites as [|sc sites IH]; [reflexivity|].
  rewrite saves_cons, results_cons, !length_app, IH. f_equal.
  unfold saves, results, measured. cbn [flat_map].
  now destruct (metrics_for int_of_str sc).
Qed.

Lemma latest_none (l : list site_data) (init : option site_data) :
  filter is_primary l = [] -> latest_primary l init = init.
Proof.
  revert init; induction l as [|d l IH]; intros init; [reflexivity|].
  cbn [filter]. unfold latest_primary. cbn [fold_left].
  destruct (is_primary d); [discriminate|]. apply IH.
Qed.

Lemma latest_last (l1 l2 : list site_data) (d : site_data)
    (init : option site_data) :
  is_primary d = true ->
  filter is_primary l2 = [] ->
  latest_primary (l1 ++ d :: l2) init = Some d.
Proof.
  intros Hd Hl. unfold latest_primary. rewrite fold_left_app. cbn [fold_left].
  rewrite Hd. now apply latest_none.
Qed.

(** X6: every site is counted once, as a success when its analysis gave a
    record and as an error otherwise; one record is saved for each
    success. *)
Theorem run_counts (cfg : config) (connected : bool)
    (sites : list (site * call_outcome)) (st : run)
    (report_for : option (site_data * list site_data)) :
  main int_of_str cfg connected sites = Completed st report_for ->
  success_count st + error_count st = length sites
  /\ success_count st = length (results int_of_str sites)
  /\ length (filter is_save (effects st)) = success_count st.
Proof.
  intros H. destruct (completed cfg connected sites st report_for H) as (_ & -> & _).
  destruct (sites_loop_spec (length sites) 0 sites start) as (_ & _ & H3 & H4 & H5).
  cbv zeta in *. rewrite H3, H4, H5. cbn [start success_count error_count effects app].
  pose proof (results_length sites).
  rewrite loop_saves, saves_length. repeat split; lia.
Qed.

(** X7: the run pauses between two sites and not after the last one:
    with n sites it sleeps n - 1 times, 5 seconds each, and its last
    effect is no pause. *)
Theorem run_pauses (cfg : config) (connected : bool)
    (sites : list (site * call_outcome)) (st : run)
    (report_for : option (site_data * list site_data)) :
  main int_of_str cfg connected sites = Completed st report_for ->
  length (filter is_sleep (effects st)) = length sites - 1
  /\ Forall (fun e => is_sleep e = true -> e = Slept 5) (effects st)
  /\ is_sleep (last (effects st) (Slept 0)) = false.
Proof.
  intros H. destruct (completed cfg connected sites st report_for H) as (Hne & -> & _).
  destruct (sites_loop_spec (length sites) 0 sites start) as (_ & _ & _ & _ & H5).
  cbv zeta in *. rewrite H5. cbn [start effects].
  repeat split.
  - cbn [app]. now apply loop_sleeps.
  - cbn [app]. apply sleeps_are_pauses.
  - now apply loop_last.
Qed.

(** X8: the comparison sites handed to the report are the measured sites
    whose label is not the primary label, in the order of the sites; the
    primary site is the last measured site of the primary label; and
    there is no report when no such site was measured. *)
Theorem run_classification (cfg : config) (connected : bool)
    (sites : list (site * call_outcome)) (st : run)
    (report_for : option (site_data * list site_data)) :
  main int_of_str cfg connected sites = Completed st report_for ->
  let measured_sites := results int_of_str sites in
  let others := filter (fun d => negb (is_primary d)) measured_sites in
  competitor_data st = others
  /\ (filter is_primary measured_sites = [] -> report_for = None)
  /\ (forall l1 d l2,
        measured_sites = l1 ++ d :: l2 ->
        is_primary d = true ->
        filter is_primary l2 = [] ->
        report_for = Some (d, others)).
Proof.
  intros H. destruct (completed cfg connected sites st report_for H) as (_ & -> & ->).
  destruct (sites_loop_spec (length sites) 0 sites start) as (H1 & H2 & _).
  cbv zeta in *. rewrite H1, H2. cbn [start my_site_data competitor_data app].
  repeat split.
  - intros Hn. now rewrite latest_none.
  - intros l1 d l2 -> Hd Hl. now rewrite latest_last.
Qed.

(** X9: what is saved is the record of every measured site under the
    identifier of that site, in the order of the sites, and nothing
    else. *)
Theorem run_saves (cfg : config) (connected : bool)
    (sites : list (site * call_outcome)) (st : run)
    (report_for : option (site_data * list site_data)) :
  main int_of_str cfg connected sites = Completed st report_for ->
  filter is_save (effects st) = saves int_of_str sites.
Proof.
  intros H. destruct (completed cfg connected sites st report_for H) as (_ & -> & _).
  destruct (sites_loop_spec (length sites) 0 sites start) as (_ & _ & _ & _ & H5).
  cbv zeta in *. rewrite H5. cbn [start effects app]. apply loop_saves.
Qed.

End OrchestratorFacts.

Lemma sample_completed :
  Orchestrator.main no_int sample_config true sample_sites
  = Orchestrator.Completed sample_run sample_report_for.
Proof. vm_compute. reflexivity. Qed.

Lemma run_counts_witness :
  Orchestrator.success_count sample_run + Orchestrator.error_count sample_run = 3
  /\ Orchestrator.success_count sample_run = 2
  /\ length (filter is_save (Orchestrator.effects sample_run))
     = Orchestrator.success_count sample_run.
Proof.
  exact (run_counts no_int sample_config true sample_sites sample_run
           sample_report_for sample_completed).
Defined.

Lemma run_pauses_witness :
  length (filter is_sleep (Orchestrator.effects sample_run)) = 2
  /\ Forall (fun e => is_sleep e = true -> e = Orchestrator.Slept 5)
            (Orchestrator.effects sample_run)
  /\ is_sleep (last (Orchestrator.effects sample_run) (Orchestrator.Slept 0))
     = false.
Proof.
  exact (run_pauses no_int sample_config true sample_sites sample_run
           sample_report_for sample_completed).
Defined.

Lemma run_classification_witness :
  map Orchestrator.sd_label (Orchestrator.competitor_data sample_run)
  = [lit "Lider"]
  /\ exists mine others,
       sample_report_for = Some (mine, others)
       /\ Orchestrator.sd_score mine = 73%Z
       /\ map Orchestrator.sd_score others = [95%Z].
Proof.
  destruct (run_classification no_int sample_config true sample_sites
              sample_run sample_report_for sample_completed) as (H1 & _ & H3).
  split; [rewrite H1; reflexivity|].
  eexists. eexists. split.
  - refine (H3 [] _ _ _ _ _); vm_compute; reflexivity.
  - split; reflexivity.
Defined.

Lemma run_saves_witness :
  map (fun e => match e with
                | Orchestrator.Saved i m => Some (i, Analyzer.score m)
                | _ => None
                end)
      (filter is_save (Orchestrator.effects sample_run))
  = [Some (JInt 1, 73%Z); Some (JInt 3, 95%Z)].
Proof.
  rewrite (run_saves no_int sample_config true sample_sites sample_run
             sample_report_for sample_completed).
  reflexivity.
Defined.

(** The effects of the sample run, in order *)
Example sample_effects :
  map (fun e => match e with
                | Orchestrator.Analyzed _ => 1
                | Orchestrator.Saved _ _ => 2
                | Orchestrator.Slept _ => 3
                end) (Orchestrator.effects sample_run)
  = [1; 2; 3; 1; 3; 1; 2].
Proof. reflexivity. Qed.

(* ================================================================== *)
(** * Further facts about the extractor *)
(* ================================================================== *)


Lemma below_is_a_problem_at (thr : Q) (sc : json) :
  match sc with
  | JNull => false
  | _ => match num_of sc with
         | Some s => Qlt_bool s thr
         | None => false
         end
  end = true ->
  match sc with
  | JNull => Return true
  | _ => ge_float sc thr
  end = Return false.
Proof.
  unfold ge_float, Qlt_bool.
  destruct sc as [|b|z|q|s|l|d]; cbn [num_of]; intros H;
    first [discriminate H | now apply negb_true_iff in H; rewrite H].
Qed.

Lemma below_is_a_problem (sc : json) :
  below_threshold sc = true -> not_a_problem sc = Return false.
Proof. exact (below_is_a_problem_at score_threshold sc). Qed.

(** X10: the order of the audit mapping decides nothing but the order of
    equal keys: on a reordered mapping the extractor returns as well, and
    returns the same recommendations up to their order. *)
Theorem extract_reordered (audits audits' : dict) (recs : list recommendation) :
  Permutation audits audits' ->
  extract_smart_recommendations audits = Return recs ->
  exists recs',
    extract_smart_recommendations audits' = Return recs'
    /\ Permutation recs recs'.
Proof.
  intros HP H. destruct (extract_returns _ _ H) as (HF & _ & ->).
  pose proof (Permutation_Forall HP HF) as HF'.
  exists (map to_recommendation (sort_desc (flat_map appended audits'))).
  split.
  - unfold extract_smart_recommendations. now rewrite (collect_total _ HF').
  - apply Permutation_map.
    rewrite !sort_desc_perm. now apply Permutation_flat_map.
Qed.

Lemma extract_reordered_witness :
  exists recs',
    extract_smart_recommendations (rev sample_audits) = Return recs'
    /\ Permutation sample_recommendations recs'.
Proof.
  apply (extract_reordered sample_audits (rev sample_audits)).
  - apply Permutation_rev.
  - vm_compute. reflexivity.
Defined.

(** X11: the description is cut before the translation is consulted: an
    included entry whose description is neither a string nor a list
    makes the extractor raise, also when its identifier is translated
    and the description would not be used. *)
Theorem description_read_eagerly (k : pystr) (ad dd : dict) :
  get ad (lit "details") (JObj []) = JObj dd ->
  below_threshold (get ad (lit "score") JNull) = true ->
  wanted dd = true ->
  is_number (get dd (lit "overallSavingsMs") (JInt 0)) = true ->
  is_number (get dd (lit "overallSavingsBytes") (JInt 0)) = true ->
  (forall s, get ad (lit "description") (JStr []) <> JStr s) ->
  (forall l, get ad (lit "description") (JStr []) <> JArr l) ->
  exists e, process_entry k (JObj ad) = Raise e.
Proof.
  intros Hd Hb Hw Hm Hby Hs Hl.
  unfold process_entry. cbn [as_dict bind]. rewrite Hd. cbn [as_dict bind].
  rewrite (below_is_a_problem _ Hb). cbn [bind]. fold (wanted dd). rewrite Hw.
  destruct (is_number_num _ Hby) as [b Hb'].
  destruct (is_number_num _ Hm) as [m Hm'].
  destruct (number_to_float _ _ Hm') as [a Ha].
  unfold truediv, add_float. rewrite Hb', Ha. cbn [bind].
  destruct (get ad (lit "description") (JStr [])) as [| | | |s|l|];
    try (now eexists).
  - now destruct (Hs s).
  - now destruct (Hl l).
Qed.

Lemma description_read_eagerly_witness :
  translations_get AUDIT_TRANSLATIONS (lit "unused-css-rules") <> None
  /\ exists e,
       process_entry (lit "unused-css-rules") (JObj null_description)
       = Raise e.
Proof.
  split; [vm_compute; discriminate|].
  apply (description_read_eagerly (lit "unused-css-rules") null_description
           [(lit "type", JStr (lit "opportunity"))]);
    try reflexivity; vm_compute; discriminate.
Defined.

(** X12: the title of a recommendation is the translated title when the
    identifier is in the table, whatever the raw title; otherwise the raw
    title, or "Bilinmeyen Tavsiye" when there is none.  Without a
    translation the action text starts with at most 150 characters of
    description. *)
Theorem texts_resolved (k : pystr) (ad : dict) (o : opportunity) :
  process_entry k (JObj ad) = Return (Some o) ->
  match translations_get AUDIT_TRANSLATIONS k with
  | Some t =>
      opp_title o = JStr (tr_title t)
      /\ firstn (length (tr_action t)) (opp_action o) = tr_action t
  | None =>
      opp_title o = get ad (lit "title") (JStr (lit "Bilinmeyen Tavsiye"))
      /\ exists s base,
           get ad (lit "description") (JStr []) = JStr s
           /\ base = firstn 150 s
           /\ length base <= 150
           /\ firstn (length base) (opp_action o) = base
  end.
Proof.
  intros H.
  destruct (process_entry_inv _ _ _ H) as (ad' & dd & [= <-] & Hd & _ & _ & Hincl).
  destruct (below_threshold _ && wanted dd); [|discriminate].
  destruct Hincl as (o' & [= <-] & _ & _ & _ & _ & _ & ms & bytes & a & base
                     & _ & _ & _ & _ & Hbase & Hact).
  pose proof (process_entry_title _ _ _ H) as Ht.
  apply base_action_cases in Hbase.
  destruct (translations_get AUDIT_TRANSLATIONS k) as [t|].
  - split; [exact Ht|]. rewrite Hact, Hbase.
    rewrite firstn_app, Nat.sub_diag, firstn_all. cbn [firstn]. apply app_nil_r.
  - split; [exact Ht|]. destruct Hbase as (s & Hs & ->).
    exists s, (firstn 150 s). unfold slice_to in *.
    repeat split; try assumption.
    + rewrite length_firstn. lia.
    + rewrite Hact, firstn_app, Nat.sub_diag, firstn_all. cbn [firstn].
      apply app_nil_r.
Qed.

Lemma texts_resolved_witness :
  exists o,
    process_entry (lit "payload") (JObj payload) = Return (Some o)
    /\ opp_title o = JStr (lit "Bilinmeyen Tavsiye").
Proof.
  destruct (process_entry (lit "payload") (JObj payload)) as [[o|]|e] eqn:E;
    try (exfalso; vm_compute in E; discriminate E).
  exists o. split; [reflexivity|].
  exact (proj1 (texts_resolved (lit "payload") payload o E)).
Defined.

(* ================================================================== *)
(** * Further facts about the report *)
(* ================================================================== *)

Section ReportWidths.

Import Report.

Variable repr_float : Q -> pystr.

Lemma center_fits (s : pystr) :
  length s <= WIDTH -> length (center WIDTH s) = WIDTH.
Proof.
  intros H. unfold center. rewrite !length_app, !repeat_length.
  assert (H0 : Nat.land (Nat.land (WIDTH - length s) WIDTH) 1 = 0).
  { rewrite <- Nat.land_assoc. change (Nat.land WIDTH 1) with 0.
    apply Nat.land_0_r. }
  rewrite H0.
  assert (Nat.div (WIDTH - length s) 2 <= WIDTH - length s)
    by (apply Nat.Div0.div_le_upper_bound; lia).
  lia.
Qed.








(** X14: the title row and the row of the display value of a
    recommendation are always exactly as wide as the box, however long
    the title and the display value are: they are cut before they are
    padded. *)
Theorem truncated_rows_fit (i : nat) (r : rec_item) :
  length (interior (title_row i r)) = WIDTH
  /\ Forall (fun l => length (interior l) = WIDTH) (display_rows r).
Proof. split; [apply title_row_width | apply display_rows_width]. Qed.

(** ** Wrapped text that fits *)

Lemma wrap_words_fit (words : list pystr) (cur : pystr) :
  Forall (fun w => length w <= 48) words ->
  length cur <= WIDTH ->
  Forall (fun l => length (interior l) = WIDTH) (wrap_words words cur).
Proof.
  intros Hw; revert cur; induction Hw as [|w words Hlen _ IH]; intros cur Hc;
    cbn [wrap_words].
  - destruct (nonempty (strip cur)); constructor; [|constructor].
    rewrite (proj2 (row_width cur)). lia.
  - destruct (length (cur ++ w) <=? 54) eqn:E.
    + apply IH. apply Nat.leb_le in E. rewrite !length_app in *.
      change (length (lit " ")) with 1. unfold WIDTH. lia.
    + constructor.
      * rewrite (proj2 (row_width cur)). lia.
      * apply IH. rewrite !length_app.
        change (length (lit "         ")) with 9.
        change (length (lit " ")) with 1. unfold WIDTH. lia.
Qed.

(** X15: when no word of the action text has more than 48 characters,
    every row of the wrapped text is exactly as wide as the box. *)
Theorem wrapped_rows_fit (r : rec_item) :
  Forall (fun w => length w <= 48)
         (split (match action r with Some a => a | None => [] end)) ->
  Forall (fun l => length (interior l) = WIDTH) (action_rows r).
Proof.
  intros H. unfold action_rows.
  destruct (nonempty _); [|constructor].
  apply wrap_words_fit; [exact H|]. vm_compute. lia.
Qed.

(** X16: in a row of the summary table the label takes exactly 20
    columns, cut to 18 characters and padded, so that the score always
    starts in column 22. *)
Theorem summary_label_column (s : site_result) :
  firstn 21 (summary_row repr_float s)
  = ljust 20 (slice_to 18 (label s)) ++ [space]
  /\ length (ljust 20 (slice_to 18 (label s))) = 20.
Proof.
  assert (H : length (ljust 20 (slice_to 18 (label s))) = 20).
  { rewrite length_ljust. unfold slice_to.
    pose proof (firstn_le_length 18 (label s)).
    rewrite length_firstn. lia. }
  split; [|exact H].
  unfold summary_row. change (lit " ") with [space].
  set (L := ljust 20 (slice_to 18 (label s))) in *.
  assert (HL : length (L ++ [space]) = 21)
    by (rewrite length_app, H; reflexivity).
  rewrite (app_assoc L [space]), firstn_app, HL, Nat.sub_diag.
  rewrite firstn_O, app_nil_r, <- HL. apply firstn_all.
Qed.

End ReportWidths.

Lemma wrapped_rows_fit_witness :
  Forall (fun l => length (Report.interior l) = Report.WIDTH)
         (Report.action_rows (sample_rec 1)).
Proof.
  apply wrapped_rows_fit. vm_compute. repeat constructor.
Defined.

(* ================================================================== *)
(** * Further facts about the analyzer *)
(* ================================================================== *)

Lemma round_half_even_bounds (y : Q) (K : Z) :
  (0 <= y)%Q -> (y <= inject_Z K)%Q ->
  (0 <= round_half_even y <= K)%Z.
Proof.
  intros H0 HK. unfold round_half_even.
  assert (H0f : (0 <= Qfloor y)%Z).
  { change 0%Z with (Qfloor (inject_Z 0)). now apply Qfloor_resp_le. }
  assert (HfK : (Qfloor y <= K)%Z).
  { rewrite <- (Qfloor_Z K). now apply Qfloor_resp_le. }
  assert (Hlt : Qfloor y = K -> (y - inject_Z (Qfloor y) ?= 1 # 2)%Q = Lt).
  { intros E. rewrite E. rewrite <- Qlt_alt.
    revert HK. generalize (inject_Z K). intros k HK. lra. }
  destruct (Z.eq_dec (Qfloor y) K) as [E|N].
  - rewrite (Hlt E). lia.
  - destruct (_ ?= _)%Q; [destruct (Z.even _)| |]; lia.
Qed.

Lemma pow2_nonpos (e : Z) :
  (e <= 0)%Z ->
  (0 < pow2 e)%Q /\ (inject_Z (2 ^ (- e)) * pow2 e == 1)%Q.
Proof.
  destruct e as [|p|p]; intros He; [split; reflexivity | lia |].
  split; [reflexivity|].
  cbn [Z.opp pow2]. unfold Qeq. cbn [Qnum Qden inject_Z Qmult].
  rewrite Pos.mul_1_l, Pos2Z.inj_pow. lia.
Qed.

Lemma trunc_bounds (r : Q) (K : Z) :
  (0 <= r)%Q -> (r <= inject_Z K)%Q -> (0 <= trunc r <= K)%Z.
Proof.
  destruct r as [n d]. unfold Qle, trunc. cbn [Qnum Qden inject_Z].
  intros H0 HK. rewrite Z.quot_div_nonneg by lia. split.
  - apply Z.div_pos; lia.
  - apply Z.div_le_upper_bound; lia.
Qed.

(** A float between zero and an integer below [2^52] stays there when it
    is rounded to binary64. *)
Lemma round_b64_bounds (x : Q) (K : Z) :
  (K < 2 ^ 52)%Z ->
  (0 <= x)%Q -> (x <= inject_Z K)%Q ->
  (0 <= round_b64 x)%Q /\ (round_b64 x <= inject_Z K)%Q.
Proof.
  intros HKr H0 HK. unfold round_b64.
  destruct (Qeq_bool x 0) eqn:Ez.
  { split; [apply Qle_refl|]. eapply Qle_trans; [exact H0 | exact HK]. }
  rewrite (proj2 (Qle_bool_iff 0 x) H0).
  assert (Ha : Qabs x = x).
  { destruct x as [n d]. unfold Qle in H0. cbn in H0. cbn [Qabs].
    now rewrite Z.abs_eq by lia. }
  rewrite Ha.
  assert (Hn : (0 < Qnum x)%Z).
  { destruct x as [n d]. unfold Qle in H0. cbn in H0. cbn [Qnum].
    destruct (Z.eq_dec n 0) as [->|]; [|lia].
    exfalso. unfold Qeq_bool in Ez. cbn in Ez. discriminate Ez. }
  set (e0 := (Z.log2 (Qnum x) - Z.log2 (Zpos (Qden x)) - 52)%Z).
  assert (He0 : (e0 <= 0)%Z).
  { unfold e0. destruct x as [n d]. unfold Qle in HK. cbn in HK. cbn [Qnum Qden] in *.
    assert (n <= Zpos d * 2 ^ 52)%Z by nia.
    assert (Hl : (Z.log2 n <= Z.log2 (Zpos d * 2 ^ 52))%Z).
    { apply Z.log2_le_mono. lia. }
    rewrite Z.log2_mul_pow2 in Hl by lia. lia. }
  set (e := if Qle_bool (pow2 52) (x / pow2 e0) then e0 else (e0 - 1)%Z).
  assert (He : (e <= 0)%Z) by (unfold e; destruct (Qle_bool _ _); lia).
  destruct (pow2_nonpos e He) as [Hc Hp].
  assert (Hy0 : (0 <= x / pow2 e)%Q).
  { apply Qle_shift_div_l; [exact Hc|]. lra. }
  assert (HyK : (x / pow2 e <= inject_Z (K * 2 ^ (- e)))%Q).
  { apply Qle_shift_div_r; [exact Hc|].
    rewrite inject_Z_mult, <- Qmult_assoc, Hp. lra. }
  destruct (round_half_even_bounds _ _ Hy0 HyK) as [Hm0 HmK].
  rewrite Qred_correct.
  rewrite Zle_Qle in Hm0, HmK. rewrite inject_Z_mult in HmK.
  change (inject_Z 0) with 0%Q in Hm0.
  revert Hm0 HmK Hc Hp.
  generalize (inject_Z (round_half_even (x / pow2 e))).
  generalize (pow2 e), (inject_Z (2 ^ (- e))), (inject_Z K).
  clear. intros c P k m Hm0 HmK Hc Hp. split.
  - apply Qmult_le_0_compat; [exact Hm0 | now apply Qlt_le_weak].
  - assert (H : (m * c <= k * P * c)%Q).
    { apply Qmult_le_compat_r; [exact HmK | now apply Qlt_le_weak]. }
    rewrite <- Qmult_assoc, Hp in H. lra.
Qed.

Section ScoreRange.

Import Analyzer.

Variable int_of_str : pystr -> option Z.

(** X17: a performance score between 0 and 1, whether a float, an integer
    or a boolean, gives a score between 0 and 100. *)
Theorem score_in_range (v : json) (q : Q) :
  num_of v = Some q -> (0 <= q)%Q -> (q <= 1)%Q ->
  exists z, scale_score int_of_str v = Return z /\ (0 <= z <= 100)%Z.
Proof.
  intros Hv H0 H1. unfold scale_score.
  destruct v as [|b|n|x|s|l|d]; try discriminate Hv;
    cbn [num_of] in Hv; injection Hv as <-; cbn [truthy].
  - destruct b; eexists; (split; [reflexivity|lia]).
  - assert (n = 0 \/ n = 1)%Z as [-> | ->].
    { unfold Qle in H0, H1. cbn in H0, H1. lia. }
    + eexists; split; [reflexivity|lia].
    + eexists; split; [reflexivity|lia].
  - destruct (negb (Qeq_bool x 0)); [|exists 0%Z; split; [reflexivity|lia]].
    eexists. split; [reflexivity|].
    assert (Hx0 : (0 <= x * 100)%Q) by lra.
    assert (Hx1 : (x * 100 <= inject_Z 100)%Q)
      by (change (inject_Z 100) with 100%Q; lra).
    destruct (round_b64_bounds (x * 100) 100 eq_refl Hx0 Hx1) as [Ha Hb].
    exact (trunc_bounds _ _ Ha Hb).
Qed.

End ScoreRange.

Section ErrorStatus.

Import Analyzer.

Variable int_of_str : pystr -> option Z.

Lemma error_status_raises (r : response) :
  (400 <= status_code r < 600)%Z -> raise_for_status r = Raise HTTPError.
Proof.
  intros [H1 H2]. unfold raise_for_status.
  apply Z.leb_le in H1. apply Z.ltb_lt in H2. now rewrite H1, H2.
Qed.

Lemma analyze_error (url : pystr) (r : response) :
  encodable url ->
  (400 <= status_code r < 600)%Z ->
  analyze int_of_str url (CallReturns r)
  = (LogScanning (strip url) :: LogHTTPError (strip url)
       :: LogStatusCode (status_code r)
       :: match error_details r with
          | Return ls => ls
          | Raise _ => [LogResponseText (slice_to 300 (text r))]
          end,
     Return None).
Proof.
  intros He H. rewrite (analyze_requested int_of_str _ _ He). cbn [try_block].
  rewrite (error_status_raises r H). reflexivity.
Qed.


(** X19: an error body whose list of errors is empty has its message
    dropped: reading the first error fails, and the log falls back to
    the text of the body. *)
Theorem empty_errors_hide_message (url : pystr) (r : response)
    (body err : dict) :
  encodable url ->
  (400 <= status_code r < 600)%Z ->
  json_body r = Some (JObj body) ->
  get body (lit "error") (JObj []) = JObj err ->
  get err (lit "errors") (JArr [JObj []]) = JArr [] ->
  fst (analyze int_of_str url (CallReturns r))
  = [LogScanning (strip url); LogHTTPError (strip url);
     LogStatusCode (status_code r);
     LogResponseText (firstn 300 (text r))].
Proof.
  intros Hu H Hb He Hl. rewrite (analyze_error url r Hu H). cbn [fst].
  unfold error_details, response_json. rewrite Hb. cbn [bind as_dict].
  rewrite He. cbn [bind as_dict]. rewrite Hl. reflexivity.
Qed.

End ErrorStatus.

Lemma score_in_range_witness :
  exists z,
    Analyzer.scale_score no_int (JFloat (round_b64 (29 # 100))) = Return z
    /\ (0 <= z <= 100)%Z.
Proof.
  apply (score_in_range no_int _ (round_b64 (29 # 100)));
    [reflexivity | vm_compute; discriminate ..].
Defined.


Lemma empty_errors_hide_message_witness :
  fst (Analyzer.analyze no_int (lit "https://example.com") (Analyzer.CallReturns quota_response))
  = [Analyzer.LogScanning (lit "https://example.com");
     Analyzer.LogHTTPError (lit "https://example.com");
     Analyzer.LogStatusCode 429;
     Analyzer.LogResponseText (lit "quota")].
Proof.
  apply (empty_errors_hide_message no_int (lit "https://example.com")
           quota_response
           [(lit "error", JObj [(lit "message", JStr (lit "Quota exceeded"));
                                (lit "errors", JArr [])])]
           [(lit "message", JStr (lit "Quota exceeded"));
            (lit "errors", JArr [])]);
    [apply encodable_check; vm_compute; reflexivity
    | vm_compute; split; [discriminate | reflexivity]
    | reflexivity ..].
Defined.

(* ================================================================== *)
(** * The words of a wrapped text *)
(* ================================================================== *)

Section WrappedWords.

Import Report.

Lemma split_go_word (w s cur : pystr) :
  Forall (fun c => isspace c = false) w ->
  split_go (w ++ s) cur = split_go s (rev w ++ cur).
Proof.
  intros H; revert cur; induction H as [|c w Hc _ IH]; intros cur; [reflexivity|].
  cbn [app split_go]. rewrite Hc, IH. cbn [rev]. now rewrite <- app_assoc.
Qed.

Lemma split_go_space (s cur : pystr) :
  split_go (space :: s) cur
  = match cur with [] => [] | _ => [rev cur] end ++ split_go s [].
Proof. cbn [split_go]. change (isspace space) with true. now destruct cur. Qed.

Lemma split_go_pad (n : nat) (cur : pystr) :
  split_go (repeat space n) cur = split_go [] cur.
Proof.
  revert cur; induction n as [|n IH]; intros cur; [reflexivity|].
  cbn [repeat]. rewrite split_go_space, IH. cbn [split_go].
  destruct cur; reflexivity.
Qed.

Lemma split_go_padded (s : pystr) (n : nat) (cur : pystr) :
  split_go (s ++ repeat space n) cur = split_go s cur.
Proof.
  revert cur; induction s as [|c s IH]; intros cur; cbn [app].
  - apply split_go_pad.
  - cbn [split_go]. destruct (isspace c); [destruct cur|]; now rewrite IH.
Qed.

Lemma split_ljust (width : nat) (s : pystr) : split (ljust width s) = split s.
Proof. apply split_go_padded. Qed.

(** Splitting after a space splits the two parts. *)
Lemma split_go_app (a b cur : pystr) :
  split_go ((a ++ [space]) ++ b) cur
  = split_go (a ++ [space]) cur ++ split_go b [].
Proof.
  revert cur; induction a as [|c a IH]; intros cur.
  - cbn [app]. rewrite !split_go_space. cbn [split_go]. now rewrite app_nil_r.
  - cbn [app split_go]. destruct (isspace c); [destruct cur|]; now rewrite IH.
Qed.

Lemma split_word_space (w : pystr) : is_word w -> split (w ++ [space]) = [w].
Proof.
  intros [Hne Hw]. unfold split.
  rewrite (split_go_word _ _ _ Hw), app_nil_r, split_go_space. cbn [split_go].
  destruct (rev w) eqn:E.
  - exfalso. apply Hne. apply (f_equal (@rev _)) in E.
    now rewrite rev_involutive in E.
  - rewrite <- E, rev_involutive. reflexivity.
Qed.

Lemma strip_nil (s : pystr) : strip s = [] -> split s = [].
Proof.
  intros H. apply strip_nil_spaces in H. unfold split.
  induction H as [|c t Hc _ IH]; [reflexivity|].
  cbn [split_go]. now rewrite Hc.
Qed.

Lemma wrap_words_kept (words : list pystr) (cur : pystr) :
  Forall is_word words ->
  concat (map (fun l => split (interior l))
              (wrap_words words (cur ++ [space])))
  = split (cur ++ [space]) ++ words.
Proof.
  intros H; revert cur; induction H as [|w words Hw _ IH]; intros cur;
    cbn [wrap_words].
  - rewrite app_nil_r. destruct (strip (cur ++ [space])) eqn:E; cbn [nonempty].
    + cbn [map concat]. symmetry. now apply strip_nil.
    + cbn [map concat]. rewrite app_nil_r. unfold row.
      rewrite interior_boxed. apply split_ljust.
  - change (lit " ") with [space].
    destruct (_ <=? 54).
    + rewrite (app_assoc (cur ++ [space]) w [space]), IH, <- app_assoc.
      unfold split. rewrite split_go_app. fold (split (w ++ [space])).
      rewrite (split_word_space w Hw), <- app_assoc. reflexivity.
    + cbn [map concat]. unfold row at 1. rewrite interior_boxed, split_ljust.
      f_equal. rewrite (app_assoc (lit "         ") w [space]), IH.
      change (lit "         ") with (repeat space 8 ++ [space]).
      rewrite <- app_assoc. unfold split. rewrite split_go_app.
      fold (split (w ++ [space])). now rewrite (split_word_space w Hw).
Qed.

(** X20: the action text loses no word when it is wrapped: read row by
    row, the rows of a non-empty action text hold the arrow and then the
    words of the text, each of them whole and in their order. *)
Theorem action_words_kept (r : rec_item) (a : pystr) :
  action r = Some a -> a <> [] ->
  concat (map (fun l => split (interior l)) (action_rows r))
  = lit "→" :: split a.
Proof.
  intros Ha Hne. unfold action_rows. rewrite Ha.
  destruct a as [|c a]; [contradiction|]. cbn [nonempty].
  change (lit "       → ") with (lit "       →" ++ [space]).
  rewrite wrap_words_kept by (apply split_go_words; constructor).
  reflexivity.
Qed.

End WrappedWords.

Lemma action_words_kept_witness :
  concat (map (fun l => split (Report.interior l))
              (Report.action_rows (sample_rec 1)))
  = lit "→"
    :: split (lit "Load the style sheets and the scripts of the page with async or defer and inline the critical part").
Proof.
  apply action_words_kept; [reflexivity | vm_compute; discriminate].
Defined.
